(** * pydiva2d: the file readers, writers and constructors of the Diva 2D classes

    A shallow embedding of [pydiva/pydiva2d.py].  Python values are modelled
    as follows.

    - [str] is [string]; a character is a code point below 256.
    - [int] is [Z]; [float] (and [numpy.float64]) is the primitive binary64
      [float] of the kernel, with its own arithmetic.
    - a [numpy] array or a Python list is the list of its entries along the
      first axis.  [np.array] applied to a list of numbers keeps [int]s
      when all are [int]s and turns them into [float]s when one entry is a
      [float]; applied to a list of lists it makes an array when the lists
      have one length, and otherwise does what the installed [numpy] does:
      an array of lists before version 1.24, a [ValueError] since.  The
      functions that depend on it take that behaviour as the argument
      [ragged].
    - an exception is a value of [exn]; a call that can raise returns a
      [result].
    - the file system is a finite map from paths to file contents, without
      directories (opening a file for writing always succeeds); the content
      of a file is the text that the interpreter delivers, after decoding
      and the translation of line ends; a file opened for reading is the
      list of the lines that remain to be read.
    - the conversions between text and [float] ([float(s)] and [str(v)])
      belong to the interpreter: the functions that use them take them as
      arguments [py_float] and [py_str]. *)

From Stdlib Require Import ZArith Ascii String Floats.
From stdpp Require Import base strings list gmap.

Local Open Scope string_scope.
Local Open Scope list_scope.
Local Open Scope nat_scope.

(** ** Exceptions and results *)

Inductive exn : Type :=
  | IndexError
  | ValueError
  | TypeError
  | AttributeError
  | KeyError
  | OverflowError
  | FileNotFoundError
  | Exception (msg : string).

Inductive result (A : Type) : Type :=
  | Ok (a : A)
  | Raise (e : exn).

Arguments Ok {A} a.
Arguments Raise {A} e.

#[global] Instance exn_eq_dec : EqDecision exn.
Proof. solve_decision. Defined.

#[global] Instance result_ret : MRet result := λ A, Ok.

#[global] Instance result_bind : MBind result := λ A B k r,
  match r with
  | Ok a => k a
  | Raise e => Raise e
  end.

(** [try: body except caught: handler] for a single exception class. *)
Definition try_except {A} (body : result A) (caught : exn) (handler : result A)
  : result A :=
  match body with
  | Ok a => Ok a
  | Raise e => if decide (e = caught) then handler else Raise e
  end.

(** The failures that the spec groups under its parse error: the built-in
    exceptions that the readers let escape when a line has too few tokens
    ([IndexError], from indexing the list of tokens) or a token is not a
    number ([ValueError], from [int] or [float]). *)
Definition ParseError (e : exn) : Prop := e = IndexError ∨ e = ValueError.

(** ** Strings: [str.isspace], [str.split], [str.rstrip], lines *)

Definition isspace (c : ascii) : bool :=
  let n := nat_of_ascii c in
  ((9 <=? n)%nat && (n <=? 13)%nat) || ((28 <=? n)%nat && (n <=? 32)%nat)
  || (n =? 133)%nat || (n =? 160)%nat.

(** [s.split()]: the maximal runs of characters that are not white space. *)
Fixpoint split (s : string) : list string :=
  match s with
  | EmptyString => []
  | String c r =>
      if isspace c then split r
      else match r with
           | EmptyString => [String c EmptyString]
           | String d _ =>
               if isspace d then String c EmptyString :: split r
               else match split r with
                    | t :: ts => String c t :: ts
                    | [] => [String c EmptyString]
                    end
           end
  end.

Fixpoint rstrip (s : string) : string :=
  match s with
  | EmptyString => EmptyString
  | String c r =>
      match rstrip r with
      | EmptyString => if isspace c then EmptyString else String c EmptyString
      | r' => String c r'
      end
  end.

Definition newline : ascii := ascii_of_nat 10.
Definition nl : string := String newline EmptyString.

(** The lines of a text, each with its terminator (the last one may lack it):
    what successive calls of [readline] return before the end of the file. *)
Fixpoint lines (s : string) : list string :=
  match s with
  | EmptyString => []
  | String c r =>
      if decide (c = newline) then nl :: lines r
      else match lines r with
           | l :: ls => String c l :: ls
           | [] => [String c EmptyString]
           end
  end.

Fixpoint no_newline (s : string) : bool :=
  match s with
  | EmptyString => true
  | String c r => negb (bool_decide (c = newline)) && no_newline r
  end.

(** A token: what [split] returns unchanged as its only element. *)
Fixpoint no_space (s : string) : bool :=
  match s with
  | EmptyString => true
  | String c r => negb (isspace c) && no_space r
  end.

Definition is_token (s : string) : bool :=
  match s with
  | EmptyString => false
  | _ => no_space s
  end.

(** [l[i]] on a list. *)
Definition getitem {A} (l : list A) (i : nat) : result A :=
  match l !! i with
  | Some a => Ok a
  | None => Raise IndexError
  end.

(** [l[i]] for an [int] index: a negative index counts from the end. *)
Definition index {A} (l : list A) (i : Z) : result A :=
  let n := Z.of_nat (length l) in
  if (0 <=? i)%Z then getitem l (Z.to_nat i)
  else if (- n <=? i)%Z then getitem l (Z.to_nat (n + i))
  else Raise IndexError.

(** ** [int(s)] and [str(n)] *)

(** The white space that [int] skips around a number: the ASCII one (tab to
    carriage return, and the space) and, of the characters above 127, the
    ones that are white space (U+0085 and U+00A0).  The separators U+001C
    to U+001F, which [str.split] and [str.rstrip] treat as white space, are
    not skipped. *)
Definition isspace_int (c : ascii) : bool :=
  let n := nat_of_ascii c in
  ((9 <=? n)%nat && (n <=? 13)%nat) || (n =? 32)%nat
  || (n =? 133)%nat || (n =? 160)%nat.

Fixpoint lstrip_int (s : string) : string :=
  match s with
  | EmptyString => EmptyString
  | String c r => if isspace_int c then lstrip_int r else s
  end.

Fixpoint rstrip_int (s : string) : string :=
  match s with
  | EmptyString => EmptyString
  | String c r =>
      match rstrip_int r with
      | EmptyString =>
          if isspace_int c then EmptyString else String c EmptyString
      | r' => String c r'
      end
  end.

Definition strip_int (s : string) : string := lstrip_int (rstrip_int s).

Definition is_digit (c : ascii) : bool :=
  let n := nat_of_ascii c in (48 <=? n)%nat && (n <=? 57)%nat.

Definition digit_val (c : ascii) : N := (N_of_ascii c - 48)%N.

Definition underscore : ascii := ascii_of_nat 95.

(** Decimal digits, with single underscores allowed between two digits. *)
Fixpoint int_digits (after_digit : bool) (acc : N) (s : string) : option N :=
  match s with
  | EmptyString => if after_digit then Some acc else None
  | String c r =>
      if is_digit c then int_digits true (acc * 10 + digit_val c)%N r
      else if decide (c = underscore) then
             (if after_digit then int_digits false acc r else None)
      else None
  end.

(** [int(s)] in base 10: white space around, an optional sign, digits
    (with the underscores of Python 3.6 and later).  [None] stands for
    [ValueError]. *)
Definition py_int (s : string) : option Z :=
  match strip_int s with
  | EmptyString => None
  | String c r =>
      if decide (c = "+"%char) then Z.of_N <$> int_digits false 0 r
      else if decide (c = "-"%char) then
             (λ n, - Z.of_N n)%Z <$> int_digits false 0 r
      else Z.of_N <$> int_digits false 0 (String c r)
  end.

Definition int (s : string) : result Z :=
  match py_int s with
  | Some z => Ok z
  | None => Raise ValueError
  end.

Definition digit_char (n : N) : ascii := ascii_of_N (48 + n mod 10).

Fixpoint digits_fuel (fuel : nat) (n : N) (acc : string) : string :=
  let acc' := String (digit_char n) acc in
  match fuel with
  | O => acc'
  | S f => if (n <? 10)%N then acc' else digits_fuel f (n / 10) acc'
  end.

Definition str_N (n : N) : string :=
  digits_fuel (N.to_nat (N.log2 n)) n EmptyString.

(** [str(z)] for an [int]. *)
Definition str_int (z : Z) : string :=
  match z with
  | Zneg p => String "-" (str_N (Npos p))
  | _ => str_N (Z.to_N z)
  end.

(** ** Files *)

Definition filesystem : Type := gmap string string.

(** An open text file: the lines not read yet. *)
Definition file : Type := list string.

(** [f.readline()]: the next line, or the empty string at the end. *)
Definition readline (f : file) : string * file :=
  match f with
  | l :: rest => (l, rest)
  | [] => (EmptyString, [])
  end.

(** A text given line by line, each line followed by its terminator (used to
    write down example files). *)
Definition text_of (ls : list string) : string :=
  foldr (λ l acc, l +:+ nl +:+ acc) EmptyString ls.


(** ** Values passed to the constructors

    The constructors test their arguments with [is None] and [isinstance]:
    an argument is [None], a list, an array, or an object of another type.
    An attribute of an instance is absent until it is assigned. *)

Inductive pyseq (A : Type) : Type :=
  | PyNone
  | PyList (l : list A)
  | PyArray (l : list A)
  | PyOther.

Arguments PyNone {A}.
Arguments PyList {A} l.
Arguments PyArray {A} l.
Arguments PyOther {A}.

Definition is_None {A} (v : pyseq A) : bool :=
  match v with
  | PyNone => true
  | _ => false
  end.

(** The entries of a sequence; [None] (and an object of another type, which
    is modelled without a length) is not a sequence. *)
Definition items {A} (v : pyseq A) : result (list A) :=
  match v with
  | PyList l | PyArray l => Ok l
  | PyNone | PyOther => Raise TypeError
  end.

(** [len(v)]. *)
Definition len {A} (v : pyseq A) : result nat :=
  l ← items v; Ok (length l).

(** [self.name]: reading an attribute that was never assigned. *)
Definition getattr {A} (slot : option A) : result A :=
  match slot with
  | Some v => Ok v
  | None => Raise AttributeError
  end.

(** ** [np.array] *)

(** The lists of a list have one length. *)
Definition same_lengths {A} (l : list (list A)) : bool :=
  match l with
  | [] => true
  | a :: r => forallb (λ b, length b =? length a) r
  end.

(** [np.array(l)] for a list of lists of [float]s.  Lists of one length
    make an array with two axes, whose entries along the first axis are
    the lists.  Lists of different lengths make an array of lists where
    [numpy] still allows it ([ragged], before version 1.24) and raise
    [ValueError] where it does not. *)
Definition np_array2 {A} (ragged : bool) (l : list (list A))
  : result (list (list A)) :=
  if ragged || same_lengths l then Ok l else Raise ValueError.

(** A sequence that a constructor can take as an array: an array, or a
    list that [np.array] accepts. *)
Definition array_like {A} (ragged : bool) (v : pyseq (list A)) : bool :=
  match v with
  | PyList l => ragged || same_lengths l
  | PyArray _ => true
  | PyNone | PyOther => false
  end.

(** [float(s)] through the interpreter's conversion. *)
Definition float_of (py_float : string → option float) (s : string)
  : result float :=
  match py_float s with
  | Some v => Ok v
  | None => Raise ValueError
  end.

(** * class Diva2DContours *)

Module Diva2DContours.

Record t : Type := mk {
  x : option (pyseq (list float));
  y : option (pyseq (list float))
}.

(** A contour set as [read_from] leaves it: both attributes are arrays. *)
Definition of_arrays (lon lat : list (list float)) : t :=
  {| x := Some (PyArray lon); y := Some (PyArray lat) |}.

Section Arrays.

(** Whether [np.array] accepts lists of different lengths. *)
Variable ragged : bool.

(** One type test of [__init__]: a list goes through [np.array], an array
    is kept. *)
Definition convert (v : pyseq (list float)) (msg : string)
  : result (pyseq (list float)) :=
  match v with
  | PyList l => a ← np_array2 ragged l; Ok (PyArray a)
  | PyArray l => Ok (PyArray l)
  | _ => Raise (Exception msg)
  end.

(** [__init__(self, x=None, y=None)].  In the last branch the exception is
    built and dropped: the statement is an expression, not a [raise]. *)
Definition init (ax ay : pyseq (list float)) : result t :=
  if is_None ax || is_None ay then
    Ok {| x := Some ax; y := Some ay |}
  else
    ax ← convert ax "Not a valid type for x coordinates";
    ay ← convert ay "Not a valid type for y coordinates";
    lx ← len ax;
    ly ← len ay;
    if decide (lx = ly) then Ok {| x := Some ax; y := Some ay |}
    else Ok {| x := None; y := None |}.

End Arrays.

Definition get_contours_number (self : t) : result nat :=
  sx ← getattr (x self); len sx.

(** [len(self.x[i])] for [i] in [range(0, ncontour)]. *)
Fixpoint points_number (self : t) (idx : list nat) (npoints : list nat)
  : result (list nat) :=
  match idx with
  | [] => Ok npoints
  | i :: rest =>
      sx ← getattr (x self);
      xs ← items sx;
      xi ← getitem xs i;
      points_number self rest (npoints ++ [length xi])
  end.

Definition get_points_number (self : t) : result (list nat) :=
  ncontour ← get_contours_number self;
  points_number self (seq 0 ncontour) [].

Section Text.

Variable ragged : bool.
Variable py_float : string → option float.
Variable py_str : float → string.

(** The inner loop of [write_to]: one coordinate line per pair. *)
Definition write_points (out : string) (xi yi : list float) : string :=
  foldl (λ out '(xx, yy), out +:+ (py_str xx +:+ " " +:+ py_str yy) +:+ nl)
        out (zip xi yi).

(** The outer loop of [write_to], over [range(0, ncontour)]; [out] is
    what has been written to the file so far. *)
Fixpoint write_contours (self : t) (npoints : list nat) (idx : list nat)
  (out : string) : result string :=
  match idx with
  | [] => Ok out
  | i :: rest =>
      n ← getitem npoints i;
      let out := out +:+ str_int (Z.of_nat n) +:+ nl in
      sx ← getattr (x self);
      xs ← items sx;
      xi ← getitem xs i;
      sy ← getattr (y self);
      ys ← items sy;
      yi ← getitem ys i;
      write_contours self npoints rest (write_points out xi yi)
  end.

(** [write_to(self, filename)]: the text written, or the exception (what
    the loop had written before an exception is not kept). *)
Definition write_text (self : t) : result string :=
  ncontour ← get_contours_number self;
  npoints ← get_points_number self;
  write_contours self npoints (seq 0 ncontour)
                 (str_int (Z.of_nat ncontour) +:+ nl).

Definition write_to (self : t) (fs : filesystem) (filename : string)
  : result filesystem :=
  text ← write_text self; Ok (<[filename := text]> fs).

(** The inner loop of [read_from]: [npoints] coordinate lines. *)
Fixpoint read_points (npoints : nat) (xx yy : list float) (f : file)
  : result (list float * list float * file) :=
  match npoints with
  | O => Ok (xx, yy, f)
  | S k =>
      let '(coords, f) := readline f in
      tx ← getitem (split coords) 0;
      vx ← float_of py_float tx;
      ty ← getitem (split coords) 1;
      vy ← float_of py_float ty;
      read_points k (xx ++ [vx]) (yy ++ [vy]) f
  end.

(** The outer loop of [read_from]: [ncontour] polylines. *)
Fixpoint read_polylines (ncontour : nat) (lon lat : list (list float))
  (f : file) : result (list (list float) * list (list float) * file) :=
  match ncontour with
  | O => Ok (lon, lat, f)
  | S k =>
      let '(line, f) := readline f in
      tok ← getitem (split line) 0;
      npoints ← int tok;
      '(xx, yy, f) ← read_points (Z.to_nat npoints) [] [] f;
      read_polylines k (lon ++ [xx]) (lat ++ [yy]) f
  end.

Definition read_text (text : string) : result t :=
  let '(line, f) := readline (lines text) in
  tok ← getitem (split line) 0;
  ncontour ← int tok;
  '(lon, lat, _) ← read_polylines (Z.to_nat ncontour) [] [] f;
  ax ← np_array2 ragged lon;
  ay ← np_array2 ragged lat;
  Ok (of_arrays ax ay).

(** [read_from(self, filename)]. *)
Definition read_from (fs : filesystem) (filename : string) : result t :=
  match fs !! filename with
  | Some text => read_text text
  | None => Raise FileNotFoundError
  end.

End Text.

(** The [coordinates] member of the dictionary that [to_geojson] dumps:
    one polygon per contour, made of one ring of [[x, y]] pairs. *)
Fixpoint geojson_coordinates (self : t) (idx : list nat)
  : result (list (list (list (float * float)))) :=
  match idx with
  | [] => Ok []
  | cont :: rest =>
      sx ← getattr (x self);
      xs ← items sx;
      xc ← getitem xs cont;
      sy ← getattr (y self);
      ys ← items sy;
      yc ← getitem ys cont;
      polygons ← geojson_coordinates self rest;
      Ok ([zip xc yc] :: polygons)
  end.

(** The geometry written by [to_geojson]: its type and its coordinates. *)
Definition to_geojson (self : t)
  : result (string * list (list (list (float * float)))) :=
  ncontour ← get_contours_number self;
  coordinates ← geojson_coordinates self (seq 0 ncontour);
  Ok ("MultiPolygon", coordinates).

(** What [add_to_plot] draws for one contour:
    [np.append(lon, lon[0])], [np.append(lat, lat[0])]. *)
Definition closed_line (lon lat : list float)
  : result (list float * list float) :=
  x0 ← getitem lon 0;
  y0 ← getitem lat 0;
  Ok (lon ++ [x0], lat ++ [y0]).

End Diva2DContours.

(** * class Diva2DData *)

(** An entry of a data array: the constructor fills the default weights
    with the [int] 1, the reader stores [float]s, and the lists given to
    the constructor hold [int]s or [float]s. *)
Inductive num : Type :=
  | NInt (z : Z)
  | NFloat (v : float).

Definition is_float (v : num) : bool :=
  match v with
  | NInt _ => false
  | NFloat _ => true
  end.

(** A number as an entry of an array of [float]s: an [int] becomes the
    nearest binary64 number. *)
Definition to_float64 (v : num) : num :=
  match v with
  | NInt z => NFloat (SF2Prim (binary_normalize prec emax z 0 false))
  | NFloat v => NFloat v
  end.

(** An [int] that an array of 64-bit integers holds. *)
Definition int64 (v : num) : bool :=
  match v with
  | NInt z => (- 2 ^ 63 <=? z)%Z && (z <? 2 ^ 63)%Z
  | NFloat _ => true
  end.

(** [np.array(l)] for a list of numbers: an array of [float]s as soon as
    one entry is a [float], an array of [int]s otherwise.  The model covers
    the lists whose [int]s are in the range of 64-bit integers; with larger
    ones [np.array] chooses among more types of array.  The array always
    has the length of the list. *)
Definition np_array1 (l : list num) : list num :=
  if existsb is_float l then to_float64 <$> l else l.

Arguments np_array1 : simpl never.

Module Diva2DData.

Record t : Type := mk {
  x : option (pyseq num);
  y : option (pyseq num);
  field : option (pyseq num);
  weight : option (pyseq num)
}.

(** A new instance: no attribute assigned yet. *)
Definition new : t := mk None None None None.

Definition set_x (v : pyseq num) (self : t) : t :=
  mk (Some v) (y self) (field self) (weight self).
Definition set_y (v : pyseq num) (self : t) : t :=
  mk (x self) (Some v) (field self) (weight self).
Definition set_field (v : pyseq num) (self : t) : t :=
  mk (x self) (y self) (Some v) (weight self).
Definition set_weight (v : pyseq num) (self : t) : t :=
  mk (x self) (y self) (field self) (Some v).

Definition bad_type : string := "Not a valid type for x coordinates".

(** [__init__(self, x=None, y=None, field=None, weight=None)]. *)
Definition init (ax ay afield aweight : pyseq num) : result t :=
  let self := new in
  '(self, ax) ←
    match ax with
    | PyNone => Ok (set_x PyNone self, PyNone)
    | PyArray l => Ok (self, PyArray l)
    | PyList l => Ok (self, PyArray (np_array1 l))
    | PyOther => Raise (Exception bad_type)
    end;
  '(self, ay) ←
    match ay with
    | PyNone => Ok (set_y PyNone self, PyNone)
    | PyArray l => Ok (self, PyArray l)
    | PyList l => Ok (self, PyArray (np_array1 l))
    | PyOther => Raise (Exception bad_type)
    end;
  '(self, afield) ←
    match afield with
    | PyNone =>
        Ok (set_y PyNone (set_x PyNone (set_field PyNone self)), PyNone)
    | PyArray l => Ok (self, PyArray l)
    | PyList l => Ok (self, PyArray (np_array1 l))
    | PyOther => Raise (Exception bad_type)
    end;
  '(self, aweight) ←
    if is_None afield && is_None aweight then
      Ok (set_y PyNone (set_x PyNone (set_field PyNone
            (set_weight PyNone self))), PyNone)
    else if is_None aweight && negb (is_None afield) then
      n ← len afield; Ok (self, PyArray (np_array1 (replicate n (NInt 1))))
    else
      match aweight with
      | PyArray l => Ok (self, PyArray l)
      | PyList l => Ok (self, PyArray (np_array1 l))
      | _ => Raise (Exception "Not a valid type for weight")
      end;
  try_except
    (lx ← len ax;
     ly ← len ay;
     lf ← len afield;
     lw ← len aweight;
     if bool_decide (lx = ly) && bool_decide (lx = lf) && bool_decide (lf = lw)
     then Ok (set_weight aweight (set_field afield (set_y ay (set_x ax self))))
     else Raise (Exception "Input vectors have not the same length"))
    TypeError
    (Ok self).

(** The property [count_data]. *)
Definition count_data (self : t) : result nat :=
  try_except (sx ← getattr (x self); len sx) AttributeError (Ok 0).

Section Text.

Variable py_float : string → option float.

(** The loop of [read_from].  At the end of the file [readline] returns
    the empty string, which has no token: the loop stops. *)
Fixpoint read_rows (f : file) (lon lat fld wgt : list float)
  : result (list float * list float * list float * list float) :=
  match f with
  | [] => Ok (lon, lat, fld, wgt)
  | line :: f =>
      let ncols := length (split line) in
      if (3 <=? ncols)%nat then
        t0 ← getitem (split line) 0;
        v0 ← float_of py_float t0;
        t1 ← getitem (split line) 1;
        v1 ← float_of py_float t1;
        t2 ← getitem (split line) 2;
        v2 ← float_of py_float t2;
        w ← (if (4 <=? ncols)%nat then
               t3 ← getitem (split line) 3; float_of py_float t3
             else Ok 1%float);
        read_rows f (lon ++ [v0]) (lat ++ [v1]) (fld ++ [v2]) (wgt ++ [w])
      else Ok (lon, lat, fld, wgt)
  end.

Definition of_columns (lon lat fld wgt : list float) : t :=
  {| x := Some (PyArray (NFloat <$> lon));
     y := Some (PyArray (NFloat <$> lat));
     field := Some (PyArray (NFloat <$> fld));
     weight := Some (PyArray (NFloat <$> wgt)) |}.

(** [read_from(self, filename)]. *)
Definition read_from (fs : filesystem) (filename : string) : result t :=
  match fs !! filename with
  | Some text =>
      '(lon, lat, fld, wgt) ← read_rows (lines text) [] [] [] [];
      Ok (of_columns lon lat fld wgt)
  | None => Raise FileNotFoundError
  end.

End Text.

Section Writing.

Variable py_str : float → string.

(** ["%s" % v] for an entry of a data array. *)
Definition str_num (v : num) : string :=
  match v with
  | NInt z => str_int z
  | NFloat v => py_str v
  end.

(** One line of [write_to]: ["%s %s %s %s\n" % (xx, yy, zz, ww)]. *)
Definition write_row (out : string) (r : num * (num * (num * num))) : string :=
  let '(xx, (yy, (zz, ww))) := r in
  out +:+ (str_num xx +:+ " " +:+ str_num yy +:+ " " +:+ str_num zz
           +:+ " " +:+ str_num ww) +:+ nl.

(** [write_to(self, filename)]: one line per element of
    [zip(self.x, self.y, self.field, self.weight)]. *)
Definition write_text (self : t) : result string :=
  sx ← getattr (x self);
  sy ← getattr (y self);
  sf ← getattr (field self);
  sw ← getattr (weight self);
  lx ← items sx;
  ly ← items sy;
  lf ← items sf;
  lw ← items sw;
  Ok (foldl write_row EmptyString (zip lx (zip ly (zip lf lw)))).

Definition write_to (self : t) (fs : filesystem) (filename : string)
  : result filesystem :=
  text ← write_text self; Ok (<[filename := text]> fs).

End Writing.

End Diva2DData.

(** * class Diva2DParameters *)

(** A parameter: [None], an [int] or a [float]. *)
Inductive pyval : Type :=
  | VNone
  | VInt (z : Z)
  | VFloat (v : float).

(** The truth value of a parameter in a condition. *)
Definition truthy (v : pyval) : bool :=
  match v with
  | VNone => false
  | VInt z => negb (z =? 0)%Z
  | VFloat v => negb (v =? 0)%float
  end.

(** [float(z)] for an [int]: the nearest binary64 number. *)
Definition float_of_int (z : Z) : result float :=
  let v := SF2Prim (binary_normalize prec emax z 0 false) in
  if is_infinity v then Raise OverflowError else Ok v.

(** [int(v)] for a [float]: the integer part. *)
Definition int_of_float (v : float) : result Z :=
  match Prim2SF v with
  | S754_zero _ => Ok 0%Z
  | S754_finite s m e =>
      let a := match e with
               | Zneg k => Z.shiftr (Zpos m) (Zpos k)
               | _ => Z.shiftl (Zpos m) e
               end in
      Ok (if s then - a else a)%Z
  | S754_infinity _ => Raise OverflowError
  | S754_nan => Raise ValueError
  end.

(** A binary arithmetic operator on two parameters. *)
Definition arith (fz : Z → Z → Z) (ff : float → float → float)
  (a b : pyval) : result pyval :=
  match a, b with
  | VInt p, VInt q => Ok (VInt (fz p q))
  | VInt p, VFloat q => p ← float_of_int p; Ok (VFloat (ff p q))
  | VFloat p, VInt q => q ← float_of_int q; Ok (VFloat (ff p q))
  | VFloat p, VFloat q => Ok (VFloat (ff p q))
  | _, _ => Raise TypeError
  end.

Definition py_add : pyval → pyval → result pyval := arith Z.add PrimFloat.add.
Definition py_sub : pyval → pyval → result pyval := arith Z.sub PrimFloat.sub.
Definition py_mul : pyval → pyval → result pyval := arith Z.mul PrimFloat.mul.

Module Diva2DParameters.

Record t : Type := mk {
  cl : pyval; icoordchange : pyval; ispec : pyval; ireg : pyval;
  xori : pyval; yori : pyval; dx : pyval; dy : pyval;
  nx : pyval; ny : pyval; valex : pyval; snr : pyval; varbak : pyval;
  xend : pyval; yend : pyval
}.

(** [ori + (n - 1) * d]. *)
Definition domain_end (ori d n : pyval) : result pyval :=
  a ← py_sub n (VInt 1);
  b ← py_mul a d;
  py_add ori b.

(** [__init__], with the defaults of its signature passed by the caller:
    the end of the domain is computed under the guard
    [if self.nx and self.dx and self.xori]. *)
Definition init (cl icoordchange ispec ireg xori yori dx dy nx ny
                 valex snr varbak : pyval) : result t :=
  xend ← (if truthy nx && truthy dx && truthy xori
          then domain_end xori dx nx else Ok VNone);
  yend ← (if truthy ny && truthy dy && truthy yori
          then domain_end yori dy ny else Ok VNone);
  Ok (mk cl icoordchange ispec ireg xori yori dx dy nx ny
         valex snr varbak xend yend).

Section Text.

(** [np.loadtxt(filename, comments='#', unpack=True)]: the numbers of
    the text. *)
Variable loadtxt : string → result (list float).

(** [read_from(self, filename)]. *)
Definition read_from (fs : filesystem) (filename : string) : result t :=
  match fs !! filename with
  | Some text =>
      values ← loadtxt text;
      match values with
      | [cl; icoord; ispec; ireg; xori; yori; dx; dy; nx; ny;
         valex; snr; varbak] =>
          icoord ← int_of_float icoord;
          ispec ← int_of_float ispec;
          ireg ← int_of_float ireg;
          nx ← int_of_float nx;
          ny ← int_of_float ny;
          xend ← domain_end (VFloat xori) (VFloat dx) (VInt nx);
          yend ← domain_end (VFloat yori) (VFloat dy) (VInt ny);
          Ok (mk (VFloat cl) (VInt icoord) (VInt ispec) (VInt ireg)
                 (VFloat xori) (VFloat yori) (VFloat dx) (VFloat dy)
                 (VInt nx) (VInt ny) (VFloat valex) (VFloat snr)
                 (VFloat varbak) xend yend)
      | _ => Raise ValueError
      end
  | None => Raise FileNotFoundError
  end.

End Text.

Section Writing.

Variable py_str : float → string.

(** ["{}".format(v)] for a parameter. *)
Definition format_val (v : pyval) : string :=
  match v with
  | VNone => "None"
  | VInt z => str_int z
  | VFloat v => py_str v
  end.

(** The string that [write_to] writes: for each parameter a comment line,
    then the value followed by a blank; the last value ends the text. *)
Definition write_text (self : t) : string :=
  "# Correlation Length lc " +:+ nl +:+ format_val (cl self) +:+ " " +:+ nl
  +:+ "# icoordchange " +:+ nl +:+ format_val (icoordchange self) +:+ " " +:+ nl
  +:+ "# ispec " +:+ nl +:+ format_val (ispec self) +:+ " " +:+ nl
  +:+ "# ireg " +:+ nl +:+ format_val (ireg self) +:+ " " +:+ nl
  +:+ "# xori " +:+ nl +:+ format_val (xori self) +:+ " " +:+ nl
  +:+ "# yori " +:+ nl +:+ format_val (yori self) +:+ " " +:+ nl
  +:+ "# dx " +:+ nl +:+ format_val (dx self) +:+ " " +:+ nl
  +:+ "# dy " +:+ nl +:+ format_val (dy self) +:+ " " +:+ nl
  +:+ "# nx " +:+ nl +:+ format_val (nx self) +:+ " " +:+ nl
  +:+ "# ny " +:+ nl +:+ format_val (ny self) +:+ " " +:+ nl
  +:+ "# valex " +:+ nl +:+ format_val (valex self) +:+ " " +:+ nl
  +:+ "# snr " +:+ nl +:+ format_val (snr self) +:+ " " +:+ nl
  +:+ "# varbak " +:+ nl +:+ format_val (varbak self).

Definition write_to (self : t) (fs : filesystem) (filename : string)
  : filesystem :=
  <[filename := write_text self]> fs.

End Writing.

End Diva2DParameters.

(** * class Diva2DValatxy *)

Module Diva2DValatxy.

Record t : Type := mk {
  x : pyseq float;
  y : pyseq float
}.

(** [__init__(self, x, y)]: here the exception is raised. *)
Definition init (ax ay : pyseq float) : result t :=
  lx ← len ax;
  ly ← len ay;
  if decide (lx = ly) then Ok {| x := ax; y := ay |}
  else Raise (Exception "Input vectors have not the same length").

Section Writing.

Variable py_str : float → string.

(** [write_to(self, filename)]: ["%s %s\n" % (xx, yy)] for each pair of
    [zip(self.x, self.y)]. *)
Definition write_text (self : t) : result string :=
  lx ← items (x self);
  ly ← items (y self);
  Ok (foldl (λ out '(xx, yy), out +:+ (py_str xx +:+ " " +:+ py_str yy) +:+ nl)
            EmptyString (zip lx ly)).

Definition write_to (self : t) (fs : filesystem) (filename : string)
  : result filesystem :=
  text ← write_text self; Ok (<[filename := text]> fs).

End Writing.

End Diva2DValatxy.

(** * class Diva2DResults *)

(** An array of the netCDF file: its shape and its entries in row-major
    order (no entry is masked). *)
Record ndarray : Type := mk_ndarray {
  shape : list nat;
  data : list float
}.

(** [c * a] for a [float] [c] and an array [a]. *)
Definition scale (c : float) (a : ndarray) : ndarray :=
  {| shape := shape a; data := (λ v, c * v)%float <$> data a |}.

(** A netCDF dataset: its variables by name. *)
Definition dataset : Type := gmap string ndarray.

(** [nc.variables[name][:]]. *)
Definition variable (nc : dataset) (name : string) : result ndarray :=
  match nc !! name with
  | Some a => Ok a
  | None => Raise KeyError
  end.

Module Diva2DResults.

Record t : Type := mk {
  x : ndarray;
  y : ndarray;
  analysis : ndarray;
  error : ndarray
}.

(** [read_from(self, filename)]: a file that cannot be opened makes
    [netCDF4.Dataset] raise [OSError], reported as [FileNotFoundError]. *)
Definition read_from (fs : gmap string dataset) (filename : string)
  : result t :=
  match fs !! filename with
  | Some nc =>
      ax ← variable nc "x";
      ay ← variable nc "y";
      an ← variable nc "analyzed_field";
      er ← try_except (variable nc "error_field") KeyError
                      (Ok (scale nan an));
      Ok (mk ax ay an er)
  | None => Raise FileNotFoundError
  end.

(** An instance built by the constructor: every attribute is assigned,
    possibly to [None]. *)
Record built : Type := mk_built {
  built_x : pyseq float;
  built_y : pyseq float;
  built_analysis : option ndarray;
  built_error : option ndarray
}.

(** [np.array(v)] for an argument that is not an array: the array of a
    list; of [None] (and of an object of another type), an array without
    a length. *)
Definition np_array (v : pyseq float) : pyseq float :=
  match v with
  | PyList l | PyArray l => PyArray l
  | PyNone | PyOther => PyOther
  end.

(** [__init__(self, x=None, y=None, analysis=None, error=None)].  The
    fields are arrays ([Some]) or anything else ([None]).  The second test
    on [y] looks at [x]. *)
Definition init (ax ay : pyseq float) (analysis error : option ndarray)
  : result built :=
  let sx := match ax with
            | PyArray l => PyArray l
            | PyList l => PyArray l
            | _ => PyNone
            end in
  let sy := match ay with
            | PyArray l => PyArray l
            | _ => match ax with
                   | PyList _ => np_array ay
                   | _ => PyNone
                   end
            end in
  match analysis with
  | Some an =>
      s0 ← getitem (shape an) 0;
      lx ← len ax;
      consistent ←
        (if decide (s0 = lx) then
           s1 ← getitem (shape an) 1;
           ly ← len ay;
           Ok (bool_decide (s1 = ly))
         else Ok false);
      if consistent : bool then
        match error with
        | Some er =>
            if decide (shape an = shape er)
            then Ok (mk_built sx sy (Some an) (Some er))
            else Raise (Exception "Dimension mismatch")
        | None => Ok (mk_built sx sy (Some an) None)
        end
      else Raise (Exception "Dimension mismatch")
  | None => Ok (mk_built sx sy None None)
  end.

End Diva2DResults.

(** * class Diva2DMesh *)

Module Diva2DMesh.

Record t : Type := mk {
  nnodes : Z;
  ninterfaces : Z;
  nelements : Z;
  xnode : list float;
  ynode : list float;
  i1 : list Z;
  i2 : list Z;
  i3 : list Z
}.

(** The number of turns of [while nlines < bound: ...; nlines += 1]. *)
Definition turns (nlines bound : Z) : nat := Z.to_nat (bound - nlines).

Section Text.

Variable py_float : string → option float.

(** The three lines of the topology file. *)
Definition read_topology (text : string) : result (Z * Z * Z) :=
  let f := lines text in
  let '(line, f) := readline f in
  nnodes ← int (rstrip line);
  let '(line, f) := readline f in
  ninterfaces ← int (rstrip line);
  let '(line, f) := readline f in
  nelements ← int (rstrip line);
  Ok (nnodes, ninterfaces, nelements).

(** First loop: the node coordinates. *)
Fixpoint read_nodes (k : nat) (xnode ynode : list float) (f : file)
  : result (list float * list float * file) :=
  match k with
  | O => Ok (xnode, ynode, f)
  | S k =>
      let '(line, f) := readline f in
      let llines := split line in
      t1 ← getitem llines 1;
      v1 ← float_of py_float t1;
      t2 ← getitem llines 2;
      v2 ← float_of py_float t2;
      read_nodes k (xnode ++ [v1]) (ynode ++ [v2]) f
  end.

(** Second loop: the interfaces. *)
Fixpoint read_interfaces (k : nat) (interfaces : list Z) (f : file)
  : result (list Z * file) :=
  match k with
  | O => Ok (interfaces, f)
  | S k =>
      let '(line, f) := readline f in
      t0 ← getitem (split line) 0;
      n ← int t0;
      read_interfaces k (interfaces ++ [n]) f
  end.

(** Third loop: the elements; each corner index is stored minus one. *)
Fixpoint read_elements (k : nat) (i1 i2 i3 : list Z) (f : file)
  : result (list Z * list Z * list Z * file) :=
  match k with
  | O => Ok (i1, i2, i3, f)
  | S k =>
      let '(line, f) := readline f in
      let llines := split line in
      t0 ← getitem llines 0;
      a ← int t0;
      t2 ← getitem llines 2;
      b ← int t2;
      t4 ← getitem llines 4;
      c ← int t4;
      read_elements k (i1 ++ [a - 1]%Z) (i2 ++ [b - 1]%Z) (i3 ++ [c - 1]%Z) f
  end.

(** [read_from(self, filename1, filename2)]: [filename1] holds the
    coordinates and the elements, [filename2] the topology. *)
Definition read_from (fs : filesystem) (filename1 filename2 : string)
  : result t :=
  match fs !! filename1, fs !! filename2 with
  | Some text1, Some text2 =>
      '(nnodes, ninterfaces, nelements) ← read_topology text2;
      let nlines := 0%Z in
      let f := lines text1 in
      let k := turns nlines nnodes in
      '(xnode, ynode, f) ← read_nodes k [] [] f;
      let nlines := (nlines + Z.of_nat k)%Z in
      let k := turns nlines (nnodes + ninterfaces) in
      '(_, f) ← read_interfaces k [] f;
      let nlines := (nlines + Z.of_nat k)%Z in
      let k := turns nlines (nnodes + ninterfaces + nelements) in
      '(i1, i2, i3, _) ← read_elements k [] [] [] f;
      Ok (mk nnodes ninterfaces nelements xnode ynode i1 i2 i3)
  | _, _ => Raise FileNotFoundError
  end.

End Text.

(** The polygon that [to_geojson] appends for element [j]: one ring of
    four points, the first corner repeated at the end. *)
Definition corner (self : t) (ik : list Z) (j : nat)
  : result (float * float) :=
  a ← getitem ik j;
  vx ← index (xnode self) a;
  a ← getitem ik j;
  vy ← index (ynode self) a;
  Ok (vx, vy).

Definition element_polygon (self : t) (j : nat)
  : result (list (list (float * float))) :=
  p1 ← corner self (i1 self) j;
  p2 ← corner self (i2 self) j;
  p3 ← corner self (i3 self) j;
  p4 ← corner self (i1 self) j;
  Ok [[p1; p2; p3; p4]].

(** The loop of [to_geojson], over [range(0, NN)]. *)
Fixpoint geojson_polygons (self : t) (idx : list nat)
  (verts : list (list (list (float * float))))
  : result (list (list (list (float * float)))) :=
  match idx with
  | [] => Ok verts
  | j :: rest =>
      polygon ← element_polygon self j;
      geojson_polygons self rest (verts ++ [polygon])
  end.

Section GeoJSON.

(** What [geojson.MultiPolygon] does to each coordinate that it is given:
    nothing before version 2.5 of the library, rounding to 6 decimal places
    since. *)
Variable precision : float → float.

Definition clean_point (p : float * float) : float * float :=
  (precision p.1, precision p.2).

Definition MultiPolygon (verts : list (list (list (float * float))))
  : string * list (list (list (float * float))) :=
  ("MultiPolygon", map (map (map clean_point)) verts).

(** The geometry written by [to_geojson]: its type and its coordinates. *)
Definition to_geojson (self : t)
  : result (string * list (list (list (float * float)))) :=
  verts ← geojson_polygons self (seq 0 (Z.to_nat (nelements self))) [];
  Ok (MultiPolygon verts).

End GeoJSON.

End Diva2DMesh.

(** * Conversions between text and [float] for the examples

    [float(s)] and [str(v)] are arguments of the readers and writers.  The
    two functions below agree with the interpreter on a part of its domain
    and serve to run the model on example files. *)

(** Digits to the end of the string, with their number. *)
Fixpoint dec_digits (acc : N) (k : nat) (s : string) : option (N * nat) :=
  match s with
  | EmptyString => Some (acc, k)
  | String c r =>
      if is_digit c then dec_digits (acc * 10 + digit_val c)%N (S k) r
      else None
  end.

(** Digits, then possibly a point and more digits: the digits read as one
    integer and the number of digits after the point. *)
Fixpoint dec_number (acc : N) (seen : bool) (s : string) : option (N * nat) :=
  match s with
  | EmptyString => if seen then Some (acc, O) else None
  | String c r =>
      if is_digit c then dec_number (acc * 10 + digit_val c)%N true r
      else if decide (c = "."%char) then
             (if seen then dec_digits acc 0 r else None)
      else None
  end.

Definition exact_float (z : Z) : float :=
  SF2Prim (binary_normalize prec emax z 0 false).

(** [float(s)] on the plain decimal literals whose digits make an integer
    below 2^53 with at most 22 digits after the point: there the quotient
    of two exact numbers is the nearest [float]. *)
Definition decimal_float (s : string) : option float :=
  let '(neg, body) :=
    match s with
    | String "-" r => (true, r)
    | String "+" r => (false, r)
    | _ => (false, s)
    end in
  '(m, k) ← dec_number 0 false body;
  if (m <? 2 ^ 53)%N && (k <=? 22)%nat then
    let v := (exact_float (Z.of_N m) / exact_float (10 ^ Z.of_nat k))%float in
    Some (if neg then (- v)%float else v)
  else None.

(** [str(v)] on the multiples of 1/2 of magnitude below 10^16. *)
Definition repr_halves (v : float) : string :=
  match Prim2SF v with
  | S754_zero s => if s then "-0.0" else "0.0"
  | S754_infinity s => if s then "-inf" else "inf"
  | S754_nan => "nan"
  | S754_finite s m e =>
      let twice :=
        match (e + 1)%Z with
        | Zneg k =>
            if (Z.land (Zpos m) (2 ^ Zpos k - 1) =? 0)%Z
            then Some (Z.shiftr (Zpos m) (Zpos k)) else None
        | e' => Some (Z.shiftl (Zpos m) e')
        end in
      match twice with
      | Some z =>
          if (z <? 2 * 10 ^ 16)%Z then
            (if s then "-" else "") +:+ str_N (Z.to_N (z / 2))
            +:+ (if Z.odd z then ".5" else ".0")
          else "nan"
      | None => "nan"
      end
  end.

(** * Properties of input files *)

(** The count that a line declares: its first token read as an [int]. *)
Definition declared (line : string) : option Z :=
  match split line with
  | tok :: _ => py_int tok
  | [] => None
  end.

(** The lines [ls] lack a record of the [n] polylines they should hold:
    the line with the point count of a polyline is missing, or fewer
    coordinate lines follow it than it declares. *)
Fixpoint short_blocks (n : nat) (ls : list string) : bool :=
  match n with
  | O => false
  | S k =>
      match ls with
      | [] => true
      | h :: rest =>
          match declared h with
          | Some p =>
              (length rest <? Z.to_nat p)%nat
              || short_blocks k (drop (Z.to_nat p) rest)
          | None => false
          end
      end
  end.

(** A contour file is truncated when the polyline count of its first line,
    or the point count of one of its polylines, exceeds the records that
    the file holds. *)
Definition truncated (text : string) : bool :=
  match lines text with
  | [] => false
  | h :: rest =>
      match declared h with
      | Some n => short_blocks (Z.to_nat n) rest
      | None => false
      end
  end.

(** The integer at token [k] of a line of the mesh file. *)
Definition corner_id (line : string) (k : nat) : option Z :=
  tok ← split line !! k; py_int tok.

(** The element lines of a mesh file with [nnodes] nodes, [ninterfaces]
    interfaces and [nelements] elements. *)
Definition element_lines (nnodes ninterfaces nelements : Z) (text : string)
  : list string :=
  take (Z.to_nat nelements)
       (drop (Z.to_nat nnodes + Z.to_nat ninterfaces) (lines text)).

(** * The reading of a data file, stated on its lines

    The file is read line by line; a line is split on white space; the
    reading stops at the first line with fewer than three tokens; the
    fourth column, the weight, defaults to 1.0 on a row that lacks it. *)

Definition row : Type := float * float * float * float.

Section DataRows.

Variable py_float : string → option float.

Definition spec_row (line : string) : result row :=
  match split line with
  | a :: b :: c :: rest =>
      vx ← float_of py_float a;
      vy ← float_of py_float b;
      v ← float_of py_float c;
      w ← match rest with
          | [] => Ok 1%float
          | d :: _ => float_of py_float d
          end;
      Ok (vx, vy, v, w)
  | _ => Raise IndexError
  end.

Fixpoint spec_rows (ls : list string) : result (list row) :=
  match ls with
  | [] => Ok []
  | line :: ls =>
      if (3 <=? length (split line))%nat then
        r ← spec_row line;
        rs ← spec_rows ls;
        Ok (r :: rs)
      else Ok []
  end.

End DataRows.

Definition row_x (r : row) : float := r.1.1.1.
Definition row_y (r : row) : float := r.1.1.2.
Definition row_value (r : row) : float := r.1.2.
Definition row_weight (r : row) : float := r.2.

Definition data_of_rows (rs : list row) : Diva2DData.t :=
  Diva2DData.of_columns (row_x <$> rs) (row_y <$> rs)
                        (row_value <$> rs) (row_weight <$> rs).

(** * The text of a contour set *)

Section Rendering.

Variable py_float : string → option float.
Variable py_str : float → string.

(** The text of [v] is one token that [float] reads back as [v]. *)
Definition printable (v : float) : Prop :=
  is_token (py_str v) = true ∧ py_float (py_str v) = Some v.

(** The coordinate lines of one polyline. *)
Definition render_points (xi yi : list float) : string :=
  foldr (λ '(xx, yy) acc,
           (py_str xx +:+ " " +:+ py_str yy) +:+ nl +:+ acc)
        EmptyString (zip xi yi).

(** The records of the polylines: a point count, then the coordinates. *)
Definition render_blocks (xs ys : list (list float)) : string :=
  foldr (λ '(xi, yi) acc,
           str_int (Z.of_nat (length xi)) +:+ nl
           +:+ render_points xi yi +:+ acc)
        EmptyString (zip xs ys).

Definition render (xs ys : list (list float)) : string :=
  str_int (Z.of_nat (length xs)) +:+ nl +:+ render_blocks xs ys.

End Rendering.

(** * The text of a data set *)

Section DataRendering.

Variable py_float : string → option float.
Variable py_str : float → string.

(** The text of rows of floats, as [write_to] lays them out. *)
Definition render_rows (rs : list row) : string :=
  foldr (λ r acc,
           (py_str (row_x r) +:+ " " +:+ py_str (row_y r) +:+ " "
            +:+ py_str (row_value r) +:+ " " +:+ py_str (row_weight r))
           +:+ nl +:+ acc)
        EmptyString rs.

Definition printable_row (r : row) : Prop :=
  printable py_float py_str (row_x r) ∧ printable py_float py_str (row_y r)
  ∧ printable py_float py_str (row_value r)
  ∧ printable py_float py_str (row_weight r).

End DataRendering.

(** * Facts about the runtime *)

Example split_ex :
  split ("  1.0 2.0" +:+ String (ascii_of_nat 9) "10.5" +:+ nl)
  = ["1.0"; "2.0"; "10.5"].
Proof. reflexivity. Qed.

Example lines_ex :
  lines ("2" +:+ nl +:+ " 3 4" +:+ nl +:+ nl +:+ "x")
  = ["2" +:+ nl; " 3 4" +:+ nl; nl; "x"].
Proof. reflexivity. Qed.

Example int_ex :
  py_int (" 12_0" +:+ nl) = Some 120%Z ∧ py_int "-7" = Some (-7)%Z
  ∧ py_int "1__0" = None ∧ py_int "" = None ∧ py_int "2.0" = None
  ∧ py_int "+" = None ∧ py_int "1 2" = None ∧ py_int "007" = Some 7%Z.
Proof. repeat split. Qed.

(** The separator U+001C ends a token for [split] and is removed by
    [rstrip], but [int] does not skip it; [int] skips U+00A0. *)
Example int_space_ex :
  split (String (ascii_of_nat 28) "5") = ["5"]
  ∧ rstrip (String "5" (String (ascii_of_nat 28) EmptyString)) = "5"
  ∧ py_int (String (ascii_of_nat 28) "5") = None
  ∧ py_int (String (ascii_of_nat 160) "5") = Some 5%Z.
Proof. repeat split. Qed.

Example str_int_ex :
  str_int 0 = "0" ∧ str_int 1203 = "1203" ∧ str_int (-45) = "-45".
Proof. repeat split. Qed.

Example np_array_ex :
  np_array1 [NInt 1; NInt 2] = [NInt 1; NInt 2]
  ∧ np_array1 [NInt 1; NFloat 2.5] = [NFloat 1; NFloat 2.5]
  ∧ np_array2 false [[1; 2]; [3; 4]]%float = Ok [[1; 2]; [3; 4]]%float
  ∧ np_array2 false [[1; 2]; [3]]%float = Raise ValueError
  ∧ np_array2 true [[1; 2]; [3]]%float = Ok [[1; 2]; [3]]%float
  ∧ np_array2 false ([] : list (list float)) = Ok [].
Proof. repeat split. Qed.

Lemma bind_Ok {A B} (r : result A) (k : A → result B) (b : B) :
  r ≫= k = Ok b → ∃ a, r = Ok a ∧ k a = Ok b.
Proof. destruct r as [a|e]; simpl; intros H; [by exists a | done]. Qed.

Lemma bind_Raise {A B} (r : result A) (k : A → result B) (e : exn) :
  r ≫= k = Raise e → r = Raise e ∨ ∃ a, r = Ok a ∧ k a = Raise e.
Proof.
  destruct r as [a|e']; simpl; intros H; [right; by exists a | left; congruence].
Qed.

Lemma getitem_Raise {A} (l : list A) (i : nat) (e : exn) :
  getitem l i = Raise e → e = IndexError.
Proof. unfold getitem. destruct (l !! i); congruence. Qed.

Lemma int_Raise (s : string) (e : exn) : int s = Raise e → e = ValueError.
Proof. unfold int. destruct (py_int s); congruence. Qed.

Lemma float_of_Raise py_float (s : string) (e : exn) :
  float_of py_float s = Raise e → e = ValueError.
Proof. unfold float_of. destruct (py_float s); congruence. Qed.

(** ** Strings *)

Lemma append_cons (c : ascii) (r s : string) :
  String c r +:+ s = String c (r +:+ s).
Proof. reflexivity. Qed.

Lemma append_nil_l (s : string) : EmptyString +:+ s = s.
Proof. reflexivity. Qed.

Lemma append_nil_r (s : string) : s +:+ EmptyString = s.
Proof. induction s as [|c r IH]; [done|]. by rewrite append_cons, IH. Qed.

Lemma append_assoc (a b c : string) : (a +:+ b) +:+ c = a +:+ (b +:+ c).
Proof. induction a as [|d r IH]; [done|]. by rewrite !append_cons, IH. Qed.

Lemma no_newline_app (a b : string) :
  no_newline (a +:+ b) = no_newline a && no_newline b.
Proof.
  induction a as [|c r IH]; [done|].
  rewrite append_cons. simpl. rewrite IH. by rewrite andb_assoc.
Qed.

Lemma no_space_app (a b : string) :
  no_space (a +:+ b) = no_space a && no_space b.
Proof.
  induction a as [|c r IH]; [done|].
  rewrite append_cons. simpl. rewrite IH. by rewrite andb_assoc.
Qed.

Lemma no_space_no_newline (s : string) :
  no_space s = true → no_newline s = true.
Proof.
  induction s as [|c r IH]; simpl; [done|].
  intros [Hc Hr]%andb_true_iff. rewrite (IH Hr), andb_true_r.
  case_bool_decide as E; [|done]. by subst c.
Qed.

Lemma is_token_no_space (s : string) : is_token s = true → no_space s = true.
Proof. by destruct s. Qed.

(** A line written with its terminator is read back as one line. *)
Lemma lines_line (l rest : string) :
  no_newline l = true → lines (l +:+ nl +:+ rest) = (l +:+ nl) :: lines rest.
Proof.
  induction l as [|c r IH].
  - intros _. rewrite !append_nil_l. unfold nl at 1. rewrite append_cons.
    by rewrite append_nil_l.
  - simpl. intros [Hc Hr]%andb_true_iff. apply negb_true_iff in Hc.
    apply bool_decide_eq_false in Hc. rewrite !append_cons. simpl.
    rewrite decide_False by done. by rewrite (IH Hr).
Qed.

Lemma split_token (t rest : string) :
  is_token t = true →
  match rest with EmptyString => True | String d _ => isspace d = true end →
  split (t +:+ rest) = t :: split rest.
Proof.
  induction t as [|c r IH]; [done|]. intros Ht Hrest.
  simpl in Ht. apply andb_true_iff in Ht as [Hc Hr].
  apply negb_true_iff in Hc. rewrite append_cons.
  destruct r as [|d r'].
  - rewrite append_nil_l. simpl. rewrite Hc.
    destruct rest as [|d rest']; [done|]. by rewrite Hrest.
  - assert (Hd : isspace d = false).
    { simpl in Hr. apply andb_true_iff in Hr as [Hd _].
      by apply negb_true_iff in Hd. }
    assert (IH' := IH Hr Hrest). rewrite append_cons in IH' |- *.
    cbn [split] in IH' |- *. rewrite Hc, Hd. rewrite Hd in IH'.
    by rewrite IH'.
Qed.

(** The tokens of a line that holds one token. *)
Lemma split_one (t : string) : is_token t = true → split (t +:+ nl) = [t].
Proof. intros Ht. by rewrite split_token. Qed.

(** The tokens of a line that holds two tokens separated by a blank. *)
Lemma split_two (a b : string) :
  is_token a = true → is_token b = true →
  split ((a +:+ " " +:+ b) +:+ nl) = [a; b].
Proof.
  intros Ha Hb. rewrite !append_assoc. rewrite (split_token a) by done.
  rewrite append_cons, append_nil_l.
  cbn [split]. change (isspace " ") with true. cbn iota.
  by rewrite split_one.
Qed.

(** What [int] skips is white space for [str.split] too. *)
Lemma isspace_int_isspace (c : ascii) : isspace_int c = true → isspace c = true.
Proof.
  destruct c as [b0 b1 b2 b3 b4 b5 b6 b7].
  by destruct b0, b1, b2, b3, b4, b5, b6, b7.
Qed.

Lemma not_isspace_int (c : ascii) : isspace c = false → isspace_int c = false.
Proof.
  intros H. destruct (isspace_int c) eqn:E; [|done].
  apply isspace_int_isspace in E. congruence.
Qed.

Lemma lstrip_int_no_space (s : string) :
  no_space s = true → lstrip_int s = s.
Proof.
  destruct s as [|c r]; simpl; [done|].
  intros [Hc _]%andb_true_iff. apply negb_true_iff in Hc.
  by rewrite (not_isspace_int c Hc).
Qed.

Lemma rstrip_int_no_space (s : string) :
  no_space s = true → rstrip_int s = s.
Proof.
  induction s as [|c r IH]; simpl; [done|].
  intros [Hc Hr]%andb_true_iff. apply negb_true_iff in Hc.
  rewrite (IH Hr). destruct r; [by rewrite (not_isspace_int c Hc) | done].
Qed.

Lemma rstrip_no_space (s : string) : no_space s = true → rstrip s = s.
Proof.
  induction s as [|c r IH]; simpl; [done|].
  intros [Hc Hr]%andb_true_iff. apply negb_true_iff in Hc.
  rewrite (IH Hr). destruct r; [by rewrite Hc | done].
Qed.

Lemma strip_int_no_space (s : string) : no_space s = true → strip_int s = s.
Proof.
  intros H. unfold strip_int. rewrite (rstrip_int_no_space s H).
  by apply lstrip_int_no_space.
Qed.

(** ** [int] and [str] on integers *)

Lemma digit_char_spec (n : N) :
  is_digit (digit_char n) = true ∧ isspace (digit_char n) = false
  ∧ digit_char n ≠ underscore ∧ digit_char n ≠ "+"%char
  ∧ digit_char n ≠ "-"%char ∧ digit_val (digit_char n) = (n mod 10)%N.
Proof.
  unfold digit_char.
  assert (H : (n mod 10 < 10)%N) by (apply N.mod_lt; lia).
  generalize dependent (n mod 10)%N. intros d Hd.
  assert (Hn : d = N.of_nat (N.to_nat d)) by lia.
  assert (Hlt : (N.to_nat d < 10)%nat) by lia.
  rewrite Hn. generalize dependent (N.to_nat d). intros k _ Hk.
  do 10 (destruct k as [|k]; [by vm_compute|]). lia.
Qed.

Lemma int_digits_digit (b : bool) (a n : N) (s : string) :
  int_digits b a (String (digit_char n) s)
  = int_digits true (a * 10 + n mod 10)%N s.
Proof.
  destruct (digit_char_spec n) as (Hd & _ & _ & _ & _ & Hv).
  simpl. by rewrite Hd, Hv.
Qed.

Lemma int_digits_fuel (f : nat) :
  ∀ n acc, (n < 10 ^ N.of_nat (S f))%N →
  ∃ k, ∀ b a,
    int_digits b a (digits_fuel f n acc)
    = int_digits true (a * 10 ^ k + n)%N acc.
Proof.
  induction f as [|f IH]; intros n acc Hn.
  - exists 1%N. intros b a. cbn [digits_fuel]. rewrite int_digits_digit.
    change (10 ^ N.of_nat 1)%N with 10%N in Hn.
    rewrite N.mod_small by done. by rewrite N.pow_1_r.
  - cbn [digits_fuel]. destruct (n <? 10)%N eqn:E.
    + apply N.ltb_lt in E. exists 1%N. intros b a.
      rewrite int_digits_digit, N.mod_small by done. by rewrite N.pow_1_r.
    + apply N.ltb_ge in E.
      destruct (IH (n / 10)%N (String (digit_char n) acc)) as [k Hk].
      { apply N.Div0.div_lt_upper_bound.
        replace (N.of_nat (S (S f))) with (N.succ (N.of_nat (S f))) in Hn
          by lia.
        by rewrite N.pow_succ_r' in Hn. }
      exists (N.succ k). intros b a. rewrite Hk, int_digits_digit.
      f_equal. rewrite N.pow_succ_r'.
      pose proof (N.div_mod n 10). lia.
Qed.

Lemma no_space_digits_fuel (f : nat) :
  ∀ n acc, no_space (digits_fuel f n acc) = no_space acc.
Proof.
  induction f as [|f IH]; intros n acc; cbn [digits_fuel].
  - simpl. by destruct (digit_char_spec n) as (_ & -> & _).
  - destruct (n <? 10)%N.
    + simpl. by destruct (digit_char_spec n) as (_ & -> & _).
    + rewrite IH. simpl. by destruct (digit_char_spec n) as (_ & -> & _).
Qed.

Lemma digits_fuel_head (f : nat) :
  ∀ n acc, ∃ d r, digits_fuel f n acc = String (digit_char d) r.
Proof.
  induction f as [|f IH]; intros n acc; cbn [digits_fuel].
  - by exists n, acc.
  - destruct (n <? 10)%N; [by exists n, acc | apply IH].
Qed.

Lemma str_N_bound (n : N) : (n < 10 ^ N.of_nat (S (N.to_nat (N.log2 n))))%N.
Proof.
  replace (N.of_nat (S (N.to_nat (N.log2 n)))) with (N.succ (N.log2 n)) by lia.
  destruct (decide (n = 0%N)) as [->|Hn]; [done|].
  assert (H : (n < 2 ^ N.succ (N.log2 n))%N) by (apply N.log2_spec; lia).
  eapply N.lt_le_trans; [exact H|]. apply N.pow_le_mono_l. lia.
Qed.

Lemma int_digits_str_N (n : N) : int_digits false 0 (str_N n) = Some n.
Proof.
  unfold str_N.
  destruct (int_digits_fuel _ n EmptyString (str_N_bound n)) as [k Hk].
  by rewrite Hk.
Qed.

Lemma no_space_str_N (n : N) : no_space (str_N n) = true.
Proof. unfold str_N. by rewrite no_space_digits_fuel. Qed.

Lemma no_space_str_int (z : Z) : no_space (str_int z) = true.
Proof. destruct z; simpl; by rewrite ?no_space_str_N. Qed.

Lemma str_N_head (n : N) : ∃ d r, str_N n = String (digit_char d) r.
Proof. apply digits_fuel_head. Qed.

(** The text of an integer is a token, and [int] reads the integer back. *)
Lemma is_token_str_int (z : Z) : is_token (str_int z) = true.
Proof.
  pose proof (no_space_str_int z) as H. unfold is_token.
  destruct (str_int z) eqn:E; [|done].
  destruct z as [|p|p]; simpl in E; [| |done].
  - by destruct (str_N_head 0) as (d & r & Hd); rewrite Hd in E.
  - by destruct (str_N_head (N.pos p)) as (d & r & Hd); rewrite Hd in E.
Qed.

Lemma py_int_str_N (n : N) : py_int (str_N n) = Some (Z.of_N n).
Proof.
  unfold py_int. rewrite strip_int_no_space by apply no_space_str_N.
  pose proof (int_digits_str_N n) as H.
  destruct (str_N_head n) as (d & r & Hd).
  rewrite Hd in *. destruct (digit_char_spec d) as (_ & _ & _ & Hp & Hm & _).
  rewrite !decide_False by done. by rewrite H.
Qed.

Lemma py_int_str_int (z : Z) : py_int (str_int z) = Some z.
Proof.
  destruct z as [|p|p]; simpl.
  - done.
  - by rewrite py_int_str_N.
  - unfold py_int. rewrite strip_int_no_space
      by (simpl; apply no_space_str_N).
    rewrite decide_False by done. rewrite decide_True by done.
    by rewrite int_digits_str_N.
Qed.

Lemma int_str_int (z : Z) : int (str_int z) = Ok z.
Proof. unfold int. by rewrite py_int_str_int. Qed.

(** A line that holds the text of an integer declares that integer. *)
Lemma declared_str_int (z : Z) : declared (str_int z +:+ nl) = Some z.
Proof.
  unfold declared. rewrite split_one by apply is_token_str_int.
  apply py_int_str_int.
Qed.

(** * Diva2DContours.read_from on short files *)

Section ContoursRead.

Variable py_float : string → option float.

Abbreviation read_points := (Diva2DContours.read_points py_float).
Abbreviation read_polylines := (Diva2DContours.read_polylines py_float).

Local Tactic Notation "bind_ok" hyp(H) "as" ident(a) ident(E) :=
  apply bind_Ok in H as (a & E & H).

(** The only exceptions that escape the two loops are those of a missing
    token and of a token that is not a number. *)
Lemma read_points_Raise (n : nat) :
  ∀ xx yy f e, read_points n xx yy f = Raise e → ParseError e.
Proof.
  induction n as [|n IH]; intros xx yy f e H; [done|].
  cbn [Diva2DContours.read_points] in H.
  destruct (readline f) as [coords f'].
  repeat
    (apply bind_Raise in H as [H|(? & _ & H)];
     [first [ left; by eapply getitem_Raise
            | right; by eapply float_of_Raise ] |]).
  by eapply IH.
Qed.

Lemma read_polylines_Raise (n : nat) :
  ∀ lon lat f e, read_polylines n lon lat f = Raise e → ParseError e.
Proof.
  induction n as [|n IH]; intros lon lat f e H; [done|].
  cbn [Diva2DContours.read_polylines] in H.
  destruct (readline f) as [line f'].
  apply bind_Raise in H as [H|(? & _ & H)];
    [left; by eapply getitem_Raise|].
  apply bind_Raise in H as [H|(? & _ & H)];
    [right; by eapply int_Raise|].
  apply bind_Raise in H as [H|([[xx yy] f''] & _ & H)];
    [by eapply read_points_Raise|].
  by eapply IH.
Qed.

(** A loop that returns has found all its lines. *)
Lemma read_points_Ok (n : nat) :
  ∀ xx yy f xx' yy' f',
    read_points n xx yy f = Ok (xx', yy', f') →
    n ≤ length f ∧ f' = drop n f
    ∧ length xx' = length xx + n ∧ length yy' = length yy + n.
Proof.
  induction n as [|n IH]; intros xx yy f xx' yy' f' H.
  - injection H as <- <- <-. rewrite drop_0. repeat split; lia.
  - cbn [Diva2DContours.read_points] in H.
    destruct f as [|coords f0]; [done|]. cbn [readline] in H.
    bind_ok H as tx Ex. bind_ok H as vx Evx.
    bind_ok H as ty Ey. bind_ok H as vy Evy.
    apply IH in H as (Hn & -> & Hx & Hy).
    rewrite length_app in Hx, Hy. simpl in *. repeat split; lia.
Qed.

Lemma read_polylines_short (n : nat) :
  ∀ lon lat f r,
    short_blocks n f = true → read_polylines n lon lat f = Ok r → False.
Proof.
  induction n as [|n IH]; intros lon lat f r Hs H; [done|].
  cbn [Diva2DContours.read_polylines] in H.
  destruct f as [|line f0]; [done|]. cbn [readline] in H.
  cbn [short_blocks] in Hs. unfold declared in Hs.
  bind_ok H as tok' Et. destruct (split line) as [|tok toks]; [done|].
  injection Et as <-.
  bind_ok H as p' Ep. unfold int in Ep.
  destruct (py_int tok) as [p|]; [|done]. injection Ep as <-.
  bind_ok H as pts Epts. destruct pts as [[xx yy] f1].
  apply read_points_Ok in Epts as (Hn & -> & _).
  apply orb_true_iff in Hs as [Hs|Hs].
  - apply Nat.ltb_lt in Hs. lia.
  - by eapply IH.
Qed.

End ContoursRead.

(** C1 (Diva2DContours.read_from, truncated files).  When the polyline
    count of the first line, or the point count of a polyline, exceeds the
    records present in an existing contour file, [read_from] raises: the
    exception is the [IndexError] of the missing token (or the [ValueError]
    of an earlier token that is not a number), which are the parse errors,
    and no contour set is returned. *)
Theorem contours_read_truncated (ragged : bool)
  (py_float : string → option float)
  (fs : filesystem) (filename text : string) :
  fs !! filename = Some text →
  truncated text = true →
  ∃ e, Diva2DContours.read_from ragged py_float fs filename = Raise e
       ∧ ParseError e.
Proof.
  intros Hfile Ht. unfold Diva2DContours.read_from. rewrite Hfile.
  unfold Diva2DContours.read_text, truncated, declared in *.
  destruct (lines text) as [|line f]; [done|]. cbn [readline].
  destruct (split line) as [|tok toks]; [done|]. cbn [getitem lookup list_lookup].
  simpl. unfold int. destruct (py_int tok) as [n|]; [|done]. simpl.
  destruct (Diva2DContours.read_polylines py_float (Z.to_nat n) [] [] f)
    as [r|e] eqn:E.
  - by destruct (read_polylines_short _ _ _ _ _ _ Ht E).
  - exists e. split; [done | by eapply read_polylines_Raise].
Qed.

(** * Diva2DContours: writing, then reading *)

Lemma np_array2_Ok {A} (ragged : bool) (l : list (list A)) :
  ragged = true ∨ same_lengths l = true → np_array2 ragged l = Ok l.
Proof.
  intros H. unfold np_array2.
  by destruct H as [-> | ->]; [|rewrite orb_true_r].
Qed.

Lemma np_array2_inv {A} (ragged : bool) (l a : list (list A)) :
  np_array2 ragged l = Ok a →
  a = l ∧ (ragged = true ∨ same_lengths l = true).
Proof.
  unfold np_array2. destruct ragged; simpl.
  - intros [= <-]. by split; [|left].
  - destruct (same_lengths l); [|done]. intros [= <-]. by split; [|right].
Qed.

Lemma np_array2_Raise {A} (ragged : bool) (l : list (list A)) (e : exn) :
  np_array2 ragged l = Raise e →
  e = ValueError ∧ ragged = false ∧ same_lengths l = false.
Proof.
  unfold np_array2. destruct ragged; simpl; [done|].
  destruct (same_lengths l); [done|]. by intros [= <-].
Qed.

(** Polylines of one length, on both sides. *)
Lemma same_lengths_Forall2 {A B} (xs : list (list A)) (ys : list (list B)) :
  Forall2 (λ xi yi, length xi = length yi) xs ys →
  same_lengths xs = same_lengths ys.
Proof.
  intros H. destruct H as [|x0 y0 xs ys H0 H]; [done|].
  simpl. induction H as [|x1 y1 xs ys H1 H IH]; [done|].
  simpl. by rewrite IH, H0, H1.
Qed.

Section ContoursRoundTrip.

Variable ragged : bool.
Variable py_float : string → option float.
Variable py_str : float → string.

Abbreviation good := (printable py_float py_str).
Abbreviation rpoints := (render_points py_str).
Abbreviation rblocks := (render_blocks py_str).

Lemma points_number_arrays (xs ys : list (list float)) :
  ∀ sx px acc, xs = px ++ sx →
  Diva2DContours.points_number (Diva2DContours.of_arrays xs ys)
    (seq (length px) (length sx)) acc
  = Ok (acc ++ (length <$> sx)).
Proof.
  induction sx as [|x0 sx IH]; intros px acc Hxs.
  - by rewrite app_nil_r.
  - cbn [length seq Diva2DContours.points_number]. simpl.
    assert (Hx0 : xs !! length px = Some x0)
      by (rewrite Hxs; by apply list_lookup_middle).
    unfold getitem. rewrite Hx0. simpl.
    specialize (IH (px ++ [x0]) (acc ++ [length x0])).
    rewrite length_app, Nat.add_1_r in IH.
    rewrite IH by (by rewrite <- app_assoc).
    by rewrite <- app_assoc.
Qed.

Lemma get_points_number_arrays (xs ys : list (list float)) :
  Diva2DContours.get_points_number (Diva2DContours.of_arrays xs ys)
  = Ok (length <$> xs).
Proof.
  unfold Diva2DContours.get_points_number. simpl.
  apply (points_number_arrays xs ys xs [] []). done.
Qed.

Lemma write_points_render (xi yi : list float) :
  ∀ out, Diva2DContours.write_points py_str out xi yi
         = out +:+ rpoints xi yi.
Proof.
  unfold Diva2DContours.write_points, render_points.
  generalize (zip xi yi). intros l.
  induction l as [|[xx yy] l IH]; intros out; simpl.
  - by rewrite append_nil_r.
  - rewrite IH. by rewrite !append_assoc.
Qed.

Lemma write_contours_render (xs ys : list (list float)) :
  ∀ sx sy px py out,
    xs = px ++ sx → ys = py ++ sy →
    length px = length py → length sx = length sy →
    Diva2DContours.write_contours py_str (Diva2DContours.of_arrays xs ys)
      (length <$> xs) (seq (length px) (length sx)) out
    = Ok (out +:+ rblocks sx sy).
Proof.
  induction sx as [|x0 sx IH]; intros sy px py out Hxs Hys Hp Hs.
  - simpl. by rewrite append_nil_r.
  - destruct sy as [|y0 sy]; [done|].
    cbn [length seq Diva2DContours.write_contours]. simpl.
    assert (Hx0 : xs !! length px = Some x0)
      by (rewrite Hxs; by apply list_lookup_middle).
    assert (Hy0 : ys !! length px = Some y0)
      by (rewrite Hys, Hp; by apply list_lookup_middle).
    assert (Hn : (length <$> xs) !! length px = Some (length x0))
      by (by rewrite list_lookup_fmap, Hx0).
    unfold getitem. rewrite Hn. simpl. rewrite Hx0. simpl.
    rewrite Hy0. simpl.
    specialize (IH sy (px ++ [x0]) (py ++ [y0])).
    rewrite length_app, Nat.add_1_r in IH.
    rewrite IH.
    + rewrite write_points_render. by rewrite !append_assoc.
    + by rewrite <- app_assoc.
    + by rewrite <- app_assoc.
    + rewrite !length_app. simpl. lia.
    + simpl in Hs. lia.
Qed.

Lemma write_text_render (xs ys : list (list float)) :
  length xs = length ys →
  Diva2DContours.write_text py_str (Diva2DContours.of_arrays xs ys)
  = Ok (render py_str xs ys).
Proof.
  intros Hl. unfold Diva2DContours.write_text.
  rewrite get_points_number_arrays. simpl.
  rewrite (write_contours_render xs ys xs ys [] []) by done.
  unfold render. by rewrite append_assoc.
Qed.

Lemma printable_line (xx yy : float) :
  good xx → good yy →
  no_newline (py_str xx +:+ " " +:+ py_str yy) = true
  ∧ split ((py_str xx +:+ " " +:+ py_str yy) +:+ nl)
    = [py_str xx; py_str yy].
Proof.
  intros [Hx _] [Hy _]. split; [|by apply split_two].
  rewrite !no_newline_app.
  by rewrite (no_space_no_newline (py_str xx)),
    (no_space_no_newline (py_str yy)) by by apply is_token_no_space.
Qed.

Lemma lines_line_app (l acc rest : string) :
  no_newline l = true →
  lines ((l +:+ nl +:+ acc) +:+ rest) = (l +:+ nl) :: lines (acc +:+ rest).
Proof. intros H. rewrite !append_assoc. by apply lines_line. Qed.

Lemma read_points_render (xi : list float) :
  ∀ yi rest xx yy,
    length xi = length yi → Forall good xi → Forall good yi →
    Diva2DContours.read_points py_float (length xi) xx yy
      (lines (rpoints xi yi +:+ rest))
    = Ok (xx ++ xi, yy ++ yi, lines rest).
Proof.
  induction xi as [|x0 xi IH]; intros yi rest xx yy Hl Hx Hy.
  - destruct yi; [|done]. by rewrite !app_nil_r.
  - destruct yi as [|y0 yi]; [done|].
    apply Forall_cons in Hx as [Hx0 Hx]. apply Forall_cons in Hy as [Hy0 Hy].
    destruct (printable_line x0 y0 Hx0 Hy0) as [Hnl Hsplit].
    unfold render_points. cbn [zip zip_with foldr].
    fold (rpoints xi yi). rewrite lines_line_app by done.
    cbn [length Diva2DContours.read_points readline].
    rewrite Hsplit. simpl. unfold float_of.
    destruct Hx0 as [_ ->]. destruct Hy0 as [_ ->]. simpl.
    rewrite IH by (done || by injection Hl).
    by rewrite <- !app_assoc.
Qed.

Lemma read_polylines_render (xs : list (list float)) :
  ∀ ys rest lon lat,
    Forall2 (λ xi yi, length xi = length yi) xs ys →
    Forall (Forall good) xs → Forall (Forall good) ys →
    Diva2DContours.read_polylines py_float (length xs) lon lat
      (lines (rblocks xs ys +:+ rest))
    = Ok (lon ++ xs, lat ++ ys, lines rest).
Proof.
  induction xs as [|xi xs IH]; intros ys rest lon lat Hl Hx Hy.
  - apply Forall2_nil_inv_l in Hl as ->. by rewrite !app_nil_r.
  - apply Forall2_cons_inv_l in Hl as (yi & ys' & Hi & Hl & ->).
    apply Forall_cons in Hx as [Hxi Hx]. apply Forall_cons in Hy as [Hyi Hy].
    unfold render_blocks. cbn [zip zip_with foldr].
    fold (rblocks xs ys').
    rewrite lines_line_app
      by (apply no_space_no_newline, no_space_str_int).
    rewrite append_assoc.
    cbn [length Diva2DContours.read_polylines readline].
    rewrite split_one by apply is_token_str_int. simpl.
    rewrite int_str_int. simpl. rewrite Nat2Z.id.
    rewrite read_points_render by done. simpl.
    rewrite IH by done. by rewrite <- !app_assoc.
Qed.

Lemma read_text_render (xs ys : list (list float)) :
  Forall2 (λ xi yi, length xi = length yi) xs ys →
  Forall (Forall good) xs → Forall (Forall good) ys →
  ragged = true ∨ same_lengths xs = true →
  Diva2DContours.read_text ragged py_float (render py_str xs ys)
  = Ok (Diva2DContours.of_arrays xs ys).
Proof.
  intros Hl Hx Hy Hr. unfold Diva2DContours.read_text, render.
  rewrite lines_line by (apply no_space_no_newline, no_space_str_int).
  cbn [readline]. rewrite split_one by apply is_token_str_int. simpl.
  rewrite int_str_int. simpl. rewrite Nat2Z.id.
  rewrite <- (append_nil_r (rblocks xs ys)).
  rewrite read_polylines_render by done. simpl.
  rewrite (np_array2_Ok ragged xs Hr). simpl.
  rewrite np_array2_Ok; [done|].
  by rewrite <- (same_lengths_Forall2 xs ys Hl).
Qed.

End ContoursRoundTrip.


(** The two truncated files of the spec: two polylines declared and one
    present; five points declared and three present. *)
Lemma contours_read_truncated_witness :
  (∃ e, Diva2DContours.read_from false decimal_float
          {[ "coast.cont" := text_of ["2"; "1"; "0.0 0.0"] ]} "coast.cont"
        = Raise e ∧ ParseError e)
  ∧ (∃ e, Diva2DContours.read_from false decimal_float
            {[ "coast.cont" := text_of ["1"; "5"; "0.0 0.0"; "1.0 0.0";
                                        "1.0 1.0"] ]} "coast.cont"
          = Raise e ∧ ParseError e).
Proof.
  split.
  - apply (contours_read_truncated false decimal_float _ "coast.cont"
             (text_of ["2"; "1"; "0.0 0.0"])); reflexivity.
  - apply (contours_read_truncated false decimal_float _ "coast.cont"
             (text_of ["1"; "5"; "0.0 0.0"; "1.0 0.0"; "1.0 1.0"]));
      reflexivity.
Defined.

Example contours_read_truncated_ex (ragged : bool) :
  Diva2DContours.read_from ragged decimal_float
    {[ "coast.cont" := text_of ["2"; "1"; "0.0 0.0"] ]} "coast.cont"
  = Raise IndexError
  ∧ Diva2DContours.read_from ragged decimal_float
      {[ "coast.cont" := text_of ["1"; "5"; "0.0 0.0"; "1.0 0.0";
                                  "1.0 1.0"] ]} "coast.cont"
    = Raise IndexError
  ∧ Diva2DContours.read_from ragged decimal_float ∅ "coast.cont"
    = Raise FileNotFoundError.
Proof. repeat split. Qed.


Example contours_write_ex :
  Diva2DContours.write_text repr_halves
    (Diva2DContours.of_arrays [[0; 1.5; 2]; [3; 4; 3.5]]%float
                              [[0; 1; 2.5]; [4.5; 4.5; 6]]%float)
  = Ok (text_of ["2"; "3"; "0.0 0.0"; "1.5 1.0"; "2.0 2.5";
                 "3"; "3.0 4.5"; "4.0 4.5"; "3.5 6.0"]).
Proof. reflexivity. Qed.

(** A triangle and a single point: the file is written; it is read back
    where [np.array] makes an array of polylines of different lengths, and
    the reader raises [ValueError], after the last line, where it does
    not. *)
Example contours_write_read_ragged_ex :
  ∃ fs',
    Diva2DContours.write_to repr_halves
      (Diva2DContours.of_arrays [[0; 1.5; 2]; [3]]%float
                                [[0; 1; 2.5]; [4.5]]%float)
      ∅ "coast.cont"
    = Ok fs'
    ∧ Diva2DContours.read_from true decimal_float fs' "coast.cont"
      = Ok (Diva2DContours.of_arrays [[0; 1.5; 2]; [3]]%float
                                     [[0; 1; 2.5]; [4.5]]%float)
    ∧ Diva2DContours.read_from false decimal_float fs' "coast.cont"
      = Raise ValueError.
Proof. eexists. repeat split. Qed.

(** * Diva2DContours.to_geojson and the constructor *)

Lemma geojson_coordinates_arrays (xs ys : list (list float)) :
  ∀ sx sy px py,
    xs = px ++ sx → ys = py ++ sy →
    length px = length py → length sx = length sy →
    Diva2DContours.geojson_coordinates (Diva2DContours.of_arrays xs ys)
      (seq (length px) (length sx))
    = Ok ((λ '(xi, yi), [zip xi yi]) <$> zip sx sy).
Proof.
  induction sx as [|x0 sx IH]; intros sy px py Hxs Hys Hp Hs; [done|].
  destruct sy as [|y0 sy]; [done|].
  cbn [length seq Diva2DContours.geojson_coordinates]. simpl.
  assert (Hx0 : xs !! length px = Some x0)
    by (rewrite Hxs; by apply list_lookup_middle).
  assert (Hy0 : ys !! length px = Some y0)
    by (rewrite Hys, Hp; by apply list_lookup_middle).
  unfold getitem. rewrite Hx0. simpl. rewrite Hy0. simpl.
  specialize (IH sy (px ++ [x0]) (py ++ [y0])).
  rewrite length_app, Nat.add_1_r in IH. rewrite IH; [done| | | |].
  - by rewrite <- app_assoc.
  - by rewrite <- app_assoc.
  - rewrite !length_app. simpl. lia.
  - simpl in Hs. lia.
Qed.

(** X24 (Diva2DContours.to_geojson).  On a contour set holding as many
    [x] as [y] polylines, the geometry is a multi-polygon with one polygon
    per contour, made of one ring: the pairs of its stored coordinates, in
    order, with nothing appended. *)
Lemma contours_geojson_rings (xs ys : list (list float)) :
  length xs = length ys →
  Diva2DContours.to_geojson (Diva2DContours.of_arrays xs ys)
  = Ok ("MultiPolygon", (λ '(xi, yi), [zip xi yi]) <$> zip xs ys).
Proof.
  intros Hl. unfold Diva2DContours.to_geojson.
  pose proof (geojson_coordinates_arrays xs ys xs ys [] []
                eq_refl eq_refl eq_refl Hl) as H.
  simpl in H |- *. by rewrite H.
Qed.

(** C5 (Diva2DContours.to_geojson).  For the contour set that holds the one
    triangle (0,0), (1,0), (0,1), [to_geojson] writes a ring of three
    points, the stored ones: the first point is not appended again, so the
    ring is not closed.  The plots of the same contour ([add_to_plot]) do
    append the first point. *)
Theorem contours_geojson_ring_not_closed :
  Diva2DContours.to_geojson
    (Diva2DContours.of_arrays [[0; 1; 0]]%float [[0; 0; 1]]%float)
  = Ok ("MultiPolygon", [[[(0, 0); (1, 0); (0, 1)]]]%float)
  ∧ Diva2DContours.closed_line [0; 1; 0]%float [0; 0; 1]%float
    = Ok ([0; 1; 0; 0], [0; 0; 1; 0])%float.
Proof. split; reflexivity. Qed.

(** The rings that [Diva2DMesh.to_geojson] writes are closed: the first
    corner of the element is repeated at the end. *)
Lemma mesh_geojson_ring_closed (self : Diva2DMesh.t) (j : nat)
  (polygon : list (list (float * float))) :
  Diva2DMesh.element_polygon self j = Ok polygon →
  ∃ p1 p2 p3, polygon = [[p1; p2; p3; p1]].
Proof.
  unfold Diva2DMesh.element_polygon. intros H.
  apply bind_Ok in H as (p1 & E1 & H). apply bind_Ok in H as (p2 & E2 & H).
  apply bind_Ok in H as (p3 & E3 & H). apply bind_Ok in H as (p4 & E4 & H).
  rewrite E1 in E4. injection E4 as <-. injection H as <-.
  by exists p1, p2, p3.
Qed.



(** With sequences of equal lengths the constructor stores them as arrays;
    reading an attribute of the instance left by a mismatch fails. *)
Lemma contours_init_equal_length (ragged : bool) (lx ly : list (list float)) :
  length lx = length ly →
  array_like ragged (PyList lx) = true →
  array_like ragged (PyList ly) = true →
  Diva2DContours.init ragged (PyList lx) (PyList ly)
  = Ok (Diva2DContours.of_arrays lx ly).
Proof.
  intros H Ax Ay. unfold Diva2DContours.init, array_like in *.
  cbn [is_None orb Diva2DContours.convert]. unfold np_array2.
  rewrite Ax, Ay. simpl. by rewrite decide_True.
Qed.

Example contours_init_mismatch_then_count (ragged : bool) :
  (self ← Diva2DContours.init ragged (PyList [[0; 1]; [2; 3]]%float)
                               (PyArray [[0; 1]]%float);
   Diva2DContours.get_contours_number self)
  = Raise AttributeError.
Proof. by destruct ragged. Qed.

(** A list of polylines of different lengths: the constructor goes on to
    the comparison of the lengths where [np.array] makes an array of it,
    and raises the [ValueError] of [np.array] where it does not. *)
Example contours_init_ragged_ex :
  Diva2DContours.init true (PyList [[0; 1]; [2]]%float)
                           (PyArray [[0; 1]]%float)
  = Ok {| Diva2DContours.x := None; Diva2DContours.y := None |}
  ∧ Diva2DContours.init false (PyList [[0; 1]; [2]]%float)
                              (PyArray [[0; 1]]%float)
    = Raise ValueError.
Proof. split; reflexivity. Qed.

(** * Diva2DData.read_from *)

Section DataRead.

Variable py_float : string → option float.

Lemma read_rows_spec (f : file) :
  ∀ lon lat fld wgt,
    Diva2DData.read_rows py_float f lon lat fld wgt
    = (rs ← spec_rows py_float f;
       Ok (lon ++ (row_x <$> rs), lat ++ (row_y <$> rs),
           fld ++ (row_value <$> rs), wgt ++ (row_weight <$> rs))).
Proof.
  induction f as [|line f IH]; intros lon lat fld wgt.
  - simpl. by rewrite !app_nil_r.
  - cbn [Diva2DData.read_rows spec_rows]. unfold spec_row.
    destruct (split line) as [|a [|b [|c rest]]];
      try (simpl; by rewrite !app_nil_r).
    replace (3 <=? length (a :: b :: c :: rest)) with true by done.
    cbn [getitem lookup list_lookup]. simpl.
    destruct (float_of py_float a) as [vx|]; [simpl|done].
    destruct (float_of py_float b) as [vy|]; [simpl|done].
    destruct (float_of py_float c) as [v|]; [simpl|done].
    destruct rest as [|d rest]; simpl.
    + rewrite IH. destruct (spec_rows py_float f) as [rs|]; [simpl|done].
      by rewrite <- !app_assoc.
    + destruct (float_of py_float d) as [w|]; [simpl|done].
      rewrite IH. destruct (spec_rows py_float f) as [rs|]; [simpl|done].
      by rewrite <- !app_assoc.
Qed.

Lemma lines_text_of (ls : list string) :
  Forall (λ l, no_newline l = true) ls →
  lines (text_of ls) = (λ l, l +:+ nl) <$> ls.
Proof.
  induction 1 as [|l ls Hl _ IH]; [done|].
  cbn [text_of foldr]. fold (text_of ls).
  rewrite lines_line by done. by rewrite IH.
Qed.

Lemma spec_rows_replicate (n : nat) (line : string) (r : row) :
  (3 <=? length (split line)) = true → spec_row py_float line = Ok r →
  spec_rows py_float (replicate n line) = Ok (replicate n r).
Proof.
  intros H3 Hr. induction n as [|n IH]; [done|].
  cbn [replicate spec_rows]. by rewrite H3, Hr, IH.
Qed.

End DataRead.

(** C4 (Diva2DData.read_from).  On an existing file the reader takes the
    lines in order, stops at the first line with fewer than three tokens
    and gives the weight 1.0 to a row without a fourth token: its result is
    the one stated on the lines of the file.  In particular, when every
    line of the file is "1.0 2.0 10.5", every row has the value 10.5 and
    the weight 1.0. *)
Theorem data_read_rows (py_float : string → option float)
  (fs : filesystem) (filename text : string) :
  fs !! filename = Some text →
  Diva2DData.read_from py_float fs filename
  = (rs ← spec_rows py_float (lines text); Ok (data_of_rows rs))
  ∧ ∀ (n : nat) (vx vy : float),
      text = text_of (replicate n "1.0 2.0 10.5") →
      py_float "1.0" = Some vx → py_float "2.0" = Some vy →
      py_float "10.5" = Some 10.5%float →
      Diva2DData.read_from py_float fs filename
      = Ok (Diva2DData.of_columns (replicate n vx) (replicate n vy)
              (replicate n 10.5%float) (replicate n 1%float)).
Proof.
  intros Hfile.
  assert (Hgen : Diva2DData.read_from py_float fs filename
                 = (rs ← spec_rows py_float (lines text);
                    Ok (data_of_rows rs))).
  { unfold Diva2DData.read_from. rewrite Hfile, read_rows_spec.
    by destruct (spec_rows py_float (lines text)). }
  split; [done|]. intros n vx vy -> Hx Hy Hv. rewrite Hgen.
  rewrite lines_text_of by (apply Forall_replicate; reflexivity).
  rewrite fmap_replicate.
  rewrite (spec_rows_replicate py_float n _ (vx, vy, 10.5, 1)%float).
  - simpl. unfold data_of_rows. by rewrite !fmap_replicate.
  - reflexivity.
  - unfold spec_row.
    replace (split ("1.0 2.0 10.5" +:+ nl)) with ["1.0"; "2.0"; "10.5"]
      by reflexivity.
    unfold float_of. by rewrite Hx, Hy, Hv.
Qed.

Lemma data_read_rows_witness :
  Diva2DData.read_from decimal_float
    {[ "data.dat" := text_of (replicate 3 "1.0 2.0 10.5") ]} "data.dat"
  = (rs ← spec_rows decimal_float
            (lines (text_of (replicate 3 "1.0 2.0 10.5")));
     Ok (data_of_rows rs))
  ∧ Diva2DData.read_from decimal_float
      {[ "data.dat" := text_of (replicate 3 "1.0 2.0 10.5") ]} "data.dat"
    = Ok (Diva2DData.of_columns (replicate 3 1%float) (replicate 3 2%float)
            (replicate 3 10.5%float) (replicate 3 1%float)).
Proof.
  destruct (data_read_rows decimal_float
              {[ "data.dat" := text_of (replicate 3 "1.0 2.0 10.5") ]}
              "data.dat" (text_of (replicate 3 "1.0 2.0 10.5")))
    as [Hgen Hrows]; [reflexivity|].
  split; [exact Hgen|].
  apply (Hrows 3 1%float 2%float); reflexivity.
Defined.

(** Rows with and without a weight; the blank line ends the reading. *)
Example data_read_ex :
  Diva2DData.read_from decimal_float
    {[ "data.dat" := text_of ["1.0 2.0 10.5"; "3.5 4.0 0.5 2.0"; "";
                              "5.0 6.0 7.0"] ]} "data.dat"
  = Ok (Diva2DData.of_columns [1; 3.5] [2; 4] [10.5; 0.5] [1; 2])%float.
Proof. reflexivity. Qed.

(** * Diva2DData: the constructor and [count_data] *)

Lemma length_np_array1 (l : list num) : length (np_array1 l) = length l.
Proof.
  unfold np_array1. destruct (existsb is_float l); [|done].
  by rewrite length_fmap.
Qed.

Lemma np_array1_ones (n : nat) :
  np_array1 (replicate n (NInt 1)) = replicate n (NInt 1).
Proof.
  unfold np_array1.
  assert (H : existsb is_float (replicate n (NInt 1)) = false)
    by (induction n; simpl; done).
  by rewrite H.
Qed.

(** X11 (Diva2DData.__init__).  With [x], [y] and the values all given,
    the constructor raises when the lengths differ, the weights being
    given or not. *)
Lemma data_init_length_mismatch (ax ay afield aweight : pyseq num)
  (lx ly lf : list num) :
  items ax = Ok lx → items ay = Ok ly → items afield = Ok lf →
  aweight ≠ PyOther →
  ¬ (length lx = length ly ∧ length lx = length lf
     ∧ (aweight = PyNone ∨ ∃ lw, items aweight = Ok lw ∧ length lf = length lw)) →
  Diva2DData.init ax ay afield aweight
  = Raise (Exception "Input vectors have not the same length").
Proof.
  intros Hx Hy Hf Hw Hne. unfold Diva2DData.init.
  destruct ax as [|? |? |]; try done; destruct ay as [|? |? |]; try done;
    destruct afield as [|? |? |]; try done;
    simpl in Hx, Hy, Hf; injection Hx as ->; injection Hy as ->;
    injection Hf as ->;
    destruct aweight as [|lw|lw|]; try done; simpl;
    rewrite ?length_np_array1, ?length_replicate;
    repeat case_bool_decide; simpl; try done;
    exfalso; apply Hne; repeat split; eauto.
Qed.

(** X12 (Diva2DData.__init__).  With [x], [y] and the values given as
    lists of one length (of [float]s and of [int]s in the range of 64-bit
    integers) and no weights, the constructor stores the arrays that
    [np.array] makes of the three lists, and as weights as many [int] ones
    as there are values. *)
Lemma data_init_default_weight (lx ly lf : list num) :
  length lx = length ly → length lx = length lf →
  forallb int64 lx = true → forallb int64 ly = true →
  forallb int64 lf = true →
  Diva2DData.init (PyList lx) (PyList ly) (PyList lf) PyNone
  = Ok {| Diva2DData.x := Some (PyArray (np_array1 lx));
          Diva2DData.y := Some (PyArray (np_array1 ly));
          Diva2DData.field := Some (PyArray (np_array1 lf));
          Diva2DData.weight := Some (PyArray (replicate (length lf) (NInt 1))) |}.
Proof.
  intros Hxy Hxf _ _ _. unfold Diva2DData.init. simpl.
  rewrite np_array1_ones, !length_np_array1, length_replicate.
  by rewrite !bool_decide_eq_true_2.
Qed.

(** C7 (Diva2DData.__init__).  With [x] of length 3, the values of length
    2 and no [y], the constructor raises nothing: [len(y)] on [None] raises
    the [TypeError] that the handler meant for the case where everything is
    [None] catches, and the instance is returned with only [y] assigned (to
    [None]).  With a [y] of length 3 the same call raises. *)
Theorem data_init_partial_mismatch :
  Diva2DData.init (PyList [NInt 1; NInt 2; NInt 3]) PyNone
                  (PyList [NInt 1; NInt 2]) PyNone
  = Ok {| Diva2DData.x := None; Diva2DData.y := Some PyNone;
          Diva2DData.field := None; Diva2DData.weight := None |}
  ∧ Diva2DData.init (PyList [NInt 1; NInt 2; NInt 3])
                    (PyList [NInt 1; NInt 2; NInt 3])
                    (PyList [NInt 1; NInt 2]) PyNone
    = Raise (Exception "Input vectors have not the same length").
Proof. split; reflexivity. Qed.

(** [count_data] is the number of rows of a data set that was read. *)
Lemma data_count_read (py_float : string → option float) (fs : filesystem)
  (filename : string) (self : Diva2DData.t) :
  Diva2DData.read_from py_float fs filename = Ok self →
  ∃ rows, Diva2DData.x self = Some (PyArray rows)
          ∧ Diva2DData.count_data self = Ok (length rows).
Proof.
  unfold Diva2DData.read_from. destruct (fs !! filename) as [text|]; [|done].
  intros H. apply bind_Ok in H as ([[[lon lat] fld] wgt] & _ & H).
  injection H as <-. by eexists.
Qed.

(** [count_data] is the number of rows of a data set that was built. *)
Lemma data_count_init (ax ay afield aweight : pyseq num) (lx : list num)
  (self : Diva2DData.t) :
  Diva2DData.init ax ay afield aweight = Ok self →
  items ax = Ok lx → afield ≠ PyNone → ay ≠ PyNone →
  Diva2DData.count_data self = Ok (length lx).
Proof.
  unfold Diva2DData.init. intros H Hx Hf Hy.
  destruct ax as [|? |? |]; try done; destruct ay as [|? |? |]; try done;
    destruct afield as [|? |? |]; try done;
    destruct aweight as [|? |? |]; try done;
    simpl in H, Hx; injection Hx as ->;
    repeat (case_bool_decide; simpl in H; try done);
    injection H as <-; unfold Diva2DData.count_data; simpl;
    by rewrite ?length_np_array1.
Qed.

(** On an instance without the attribute [x], [count_data] is 0. *)
Example data_count_new : Diva2DData.count_data Diva2DData.new = Ok 0.
Proof. reflexivity. Qed.

(** C9 (Diva2DData.count_data).  The constructor called without argument
    assigns [None] to [x]; [count_data] then raises [TypeError], from
    [len(None)]: its handler catches [AttributeError] only, and 0 is not
    returned. *)
Theorem data_count_unconstructed :
  ∃ self, Diva2DData.init PyNone PyNone PyNone PyNone = Ok self
          ∧ Diva2DData.x self = Some PyNone
          ∧ Diva2DData.count_data self = Raise TypeError.
Proof. eexists. repeat split. Qed.

(** * Diva2DParameters: the end of the domain *)

(** X17 (Diva2DParameters.__init__).  When [nx], [dx] and [xori] are all
    true in a condition, the constructor stores [xori + (nx - 1) * dx]. *)
Lemma parameters_init_xend (cl icoordchange ispec ireg xori yori dx dy nx ny
    valex snr varbak : pyval) (p : Diva2DParameters.t) :
  Diva2DParameters.init cl icoordchange ispec ireg xori yori dx dy nx ny
                        valex snr varbak = Ok p →
  truthy nx = true → truthy dx = true → truthy xori = true →
  Diva2DParameters.domain_end xori dx nx = Ok (Diva2DParameters.xend p).
Proof.
  unfold Diva2DParameters.init. intros H Hn Hd Hx.
  rewrite Hn, Hd, Hx in H. simpl in H.
  apply bind_Ok in H as (xend & -> & H). apply bind_Ok in H as (yend & _ & H).
  by injection H as <-.
Qed.

(** X18 (Diva2DParameters.__init__).  An origin that is zero (or [None])
    is false in the condition of the constructor: no end of the domain is
    stored, whatever the step and the number of points. *)
Lemma parameters_init_falsy (cl icoordchange ispec ireg xori yori dx dy nx ny
    valex snr varbak : pyval) (p : Diva2DParameters.t) :
  Diva2DParameters.init cl icoordchange ispec ireg xori yori dx dy nx ny
                        valex snr varbak = Ok p →
  truthy xori = false →
  Diva2DParameters.xend p = VNone.
Proof.
  unfold Diva2DParameters.init. intros H Hx. rewrite Hx, andb_false_r in H.
  simpl in H. apply bind_Ok in H as (yend & _ & H). by injection H as <-.
Qed.

(** X19 (Diva2DParameters.read_from).  [read_from] computes the two ends
    of the domain without a condition: they are the formula applied to the
    origins, steps and numbers of points that it stores. *)
Lemma parameters_read_xend (loadtxt : string → result (list float))
  (fs : filesystem) (filename : string) (p : Diva2DParameters.t) :
  Diva2DParameters.read_from loadtxt fs filename = Ok p →
  Diva2DParameters.domain_end (Diva2DParameters.xori p) (Diva2DParameters.dx p)
                              (Diva2DParameters.nx p)
  = Ok (Diva2DParameters.xend p)
  ∧ Diva2DParameters.domain_end (Diva2DParameters.yori p)
      (Diva2DParameters.dy p) (Diva2DParameters.ny p)
    = Ok (Diva2DParameters.yend p).
Proof.
  unfold Diva2DParameters.read_from.
  destruct (fs !! filename) as [text|]; [|done]. intros H.
  apply bind_Ok in H as (values & _ & H).
  do 13 (destruct values as [|? values]; [done|]).
  destruct values; [|done].
  do 5 (apply bind_Ok in H as (? & _ & H)).
  apply bind_Ok in H as (xend & Ex & H). apply bind_Ok in H as (yend & Ey & H).
  by injection H as <-.
Qed.

Example parameters_read_ex :
  Diva2DParameters.xend <$>
    (match Diva2DParameters.read_from
             (λ _, Ok [1.5; 0; 0; 0; 0; 0; 0.5; 0.5; 11; 11; -999; 1; 1]%float)
             {[ "param.par" := "" ]} "param.par" with
     | Ok p => Some p
     | Raise _ => None
     end)
  = Some (VFloat 5).
Proof. reflexivity. Qed.

(** C6 (Diva2DParameters.__init__).  With [xori = 0], [dx = 0.5] and
    [nx = 11] the constructor stores [None] as [xend], not 5.0: the guard
    [if self.nx and self.dx and self.xori] takes the origin 0 for a missing
    one.  The formula itself gives 5.0 on these values, and so does
    [read_from], which applies it without the guard. *)
Theorem parameters_init_xori_zero :
  ∃ p, Diva2DParameters.init VNone (VInt 0) (VInt 0) (VInt 0)
         (VInt 0) VNone (VFloat 0.5) VNone (VInt 11) VNone
         (VFloat (-999)) VNone VNone = Ok p
       ∧ Diva2DParameters.xend p = VNone
       ∧ Diva2DParameters.domain_end (VInt 0) (VFloat 0.5) (VInt 11)
         = Ok (VFloat 5).
Proof. eexists. repeat split. Qed.

Example parameters_init_ex :
  Diva2DParameters.xend <$>
    (match Diva2DParameters.init VNone (VInt 0) (VInt 0) (VInt 0)
             (VFloat 1) VNone (VFloat 0.5) VNone (VInt 11) VNone
             (VFloat (-999)) VNone VNone with
     | Ok p => Some p
     | Raise _ => None
     end)
  = Some (VFloat 6).
Proof. reflexivity. Qed.

(** * Diva2DResults.read_from without an error field *)

Lemma nan_mul_is_nan (v : float) : is_nan (nan * v) = true.
Proof.
  unfold is_nan. rewrite FloatAxioms.eqb_spec, mul_spec.
  replace (Prim2SF nan) with S754_nan by reflexivity. reflexivity.
Qed.

(** C8 (Diva2DResults.read_from).  When the file holds [x], [y] and
    [analyzed_field] and no [error_field], the error array of the result has
    the shape of the analysis array, as many entries, and every entry is
    not-a-number. *)
Theorem results_read_missing_error (fs : gmap string dataset)
  (filename : string) (nc : dataset) (ax ay an : ndarray) :
  fs !! filename = Some nc →
  nc !! "x" = Some ax → nc !! "y" = Some ay →
  nc !! "analyzed_field" = Some an →
  nc !! "error_field" = None →
  ∃ r, Diva2DResults.read_from fs filename = Ok r
       ∧ Diva2DResults.analysis r = an
       ∧ shape (Diva2DResults.error r) = shape an
       ∧ length (data (Diva2DResults.error r)) = length (data an)
       ∧ Forall (λ v, is_nan v = true) (data (Diva2DResults.error r)).
Proof.
  intros Hfile Hx Hy Han Her. unfold Diva2DResults.read_from, variable.
  rewrite Hfile, Hx, Hy, Han, Her. simpl. eexists. split; [done|]. simpl.
  repeat split.
  - by rewrite length_fmap.
  - apply Forall_fmap, Forall_forall. intros v _. apply nan_mul_is_nan.
Qed.

Lemma results_read_missing_error_witness :
  ∃ r, Diva2DResults.read_from
         {[ "results.nc" :=
              {[ "x" := mk_ndarray [2] [0; 1]%float;
                 "y" := mk_ndarray [3] [0; 1; 2]%float;
                 "analyzed_field" :=
                   mk_ndarray [2; 3] [1.5; 2; -999; 0; 0.5; 7]%float ]} ]}
         "results.nc" = Ok r
       ∧ Diva2DResults.analysis r
         = mk_ndarray [2; 3] [1.5; 2; -999; 0; 0.5; 7]%float
       ∧ shape (Diva2DResults.error r) = [2; 3]
       ∧ length (data (Diva2DResults.error r)) = 6
       ∧ Forall (λ v, is_nan v = true) (data (Diva2DResults.error r)).
Proof.
  apply (results_read_missing_error _ _
           {[ "x" := mk_ndarray [2] [0; 1]%float;
              "y" := mk_ndarray [3] [0; 1; 2]%float;
              "analyzed_field" :=
                mk_ndarray [2; 3] [1.5; 2; -999; 0; 0.5; 7]%float ]}
           (mk_ndarray [2] [0; 1]%float) (mk_ndarray [3] [0; 1; 2]%float)
           (mk_ndarray [2; 3] [1.5; 2; -999; 0; 0.5; 7]%float));
    reflexivity.
Defined.

(** With an error field in the file, it is the one returned; without the
    file, the failure is [FileNotFoundError]. *)
Example results_read_ex :
  Diva2DResults.error <$>
    (match Diva2DResults.read_from
             {[ "results.nc" :=
                  {[ "x" := mk_ndarray [1] [0]%float;
                     "y" := mk_ndarray [1] [0]%float;
                     "analyzed_field" := mk_ndarray [1; 1] [1.5]%float;
                     "error_field" := mk_ndarray [1; 1] [0.25]%float ]} ]}
             "results.nc" with
     | Ok r => Some r
     | Raise _ => None
     end)
  = Some (mk_ndarray [1; 1] [0.25]%float)
  ∧ Diva2DResults.read_from ∅ "results.nc" = Raise FileNotFoundError.
Proof. split; reflexivity. Qed.

(** * Diva2DMesh.read_from *)

Section MeshRead.

Variable py_float : string → option float.

Local Tactic Notation "bind_ok" hyp(H) "as" ident(a) ident(E) :=
  apply bind_Ok in H as (a & E & H).

Lemma read_nodes_Ok (k : nat) :
  ∀ xnode ynode f xnode' ynode' f',
    Diva2DMesh.read_nodes py_float k xnode ynode f = Ok (xnode', ynode', f') →
    k ≤ length f ∧ f' = drop k f
    ∧ length xnode' = length xnode + k ∧ length ynode' = length ynode + k.
Proof.
  induction k as [|k IH]; intros xnode ynode f xnode' ynode' f' H.
  - injection H as <- <- <-. rewrite drop_0. repeat split; lia.
  - cbn [Diva2DMesh.read_nodes] in H.
    destruct f as [|line f0]; [done|]. cbn [readline] in H.
    bind_ok H as t1 E1. bind_ok H as v1 Ev1.
    bind_ok H as t2 E2. bind_ok H as v2 Ev2.
    apply IH in H as (Hn & -> & Hx & Hy).
    rewrite length_app in Hx, Hy. simpl in *. repeat split; lia.
Qed.

Lemma read_interfaces_Ok (k : nat) :
  ∀ interfaces f interfaces' f',
    Diva2DMesh.read_interfaces k interfaces f = Ok (interfaces', f') →
    k ≤ length f ∧ f' = drop k f.
Proof.
  induction k as [|k IH]; intros interfaces f interfaces' f' H.
  - injection H as <- <-. rewrite drop_0. split; [lia|done].
  - cbn [Diva2DMesh.read_interfaces] in H.
    destruct f as [|line f0]; [done|]. cbn [readline] in H.
    bind_ok H as t0 E0. bind_ok H as n En.
    apply IH in H as (Hn & ->). simpl. split; [lia|done].
Qed.

(** The third loop stores, for each of its lines, the integers at the
    tokens 0, 2 and 4 minus one, whatever their values. *)
Lemma read_elements_Ok (k : nat) :
  ∀ i1 i2 i3 f i1' i2' i3' f',
    Diva2DMesh.read_elements k i1 i2 i3 f = Ok (i1', i2', i3', f') →
    k ≤ length f
    ∧ ∃ n1 n2 n3,
        i1' = i1 ++ n1 ∧ i2' = i2 ++ n2 ∧ i3' = i3 ++ n3
        ∧ Forall2 (λ line i, corner_id line 0 = Some (i + 1)%Z) (take k f) n1
        ∧ Forall2 (λ line i, corner_id line 2 = Some (i + 1)%Z) (take k f) n2
        ∧ Forall2 (λ line i, corner_id line 4 = Some (i + 1)%Z) (take k f) n3.
Proof.
  induction k as [|k IH]; intros i1 i2 i3 f i1' i2' i3' f' H.
  - injection H as <- <- <- <-. split; [lia|].
    exists [], [], []. rewrite !app_nil_r, take_0. by repeat split.
  - cbn [Diva2DMesh.read_elements] in H.
    destruct f as [|line f0]; [done|]. cbn [readline] in H.
    bind_ok H as t0 E0. bind_ok H as a Ea.
    bind_ok H as t2 E2. bind_ok H as b Eb.
    bind_ok H as t4 E4. bind_ok H as c Ec.
    apply IH in H as (Hn & n1 & n2 & n3 & -> & -> & -> & H1 & H2 & H3).
    split; [simpl; lia|].
    exists ((a - 1)%Z :: n1), ((b - 1)%Z :: n2), ((c - 1)%Z :: n3).
    rewrite <- !app_assoc. repeat split; try done;
      cbn [take]; apply Forall2_cons; (split; [|done]);
      unfold corner_id, getitem, int in *;
      [ destruct (split line !! 0) as [t|]; [|done]; injection E0 as ->;
        simpl; destruct (py_int t0) as [z|]; [|done]; injection Ea as ->
      | destruct (split line !! 2) as [t|]; [|done]; injection E2 as ->;
        simpl; destruct (py_int t2) as [z|]; [|done]; injection Eb as ->
      | destruct (split line !! 4) as [t|]; [|done]; injection E4 as ->;
        simpl; destruct (py_int t4) as [z|]; [|done]; injection Ec as -> ];
      f_equal; lia.
Qed.

End MeshRead.

(** C2, as the code has it (Diva2DMesh.read_from).  For a mesh read from a
    topology file with non-negative node and interface counts, the element
    lines are all present and each entry of [i1], [i2], [i3] is the integer
    at the token 0, 2, 4 of its element line, minus one.  The entries are
    not compared with [nnodes]. *)
Theorem mesh_read_rebased (py_float : string → option float)
  (fs : filesystem) (filename1 filename2 text1 : string) (m : Diva2DMesh.t) :
  fs !! filename1 = Some text1 →
  Diva2DMesh.read_from py_float fs filename1 filename2 = Ok m →
  (0 ≤ Diva2DMesh.nnodes m)%Z → (0 ≤ Diva2DMesh.ninterfaces m)%Z →
  let els := element_lines (Diva2DMesh.nnodes m) (Diva2DMesh.ninterfaces m)
                           (Diva2DMesh.nelements m) text1 in
  length els = Z.to_nat (Diva2DMesh.nelements m)
  ∧ Forall2 (λ line i, corner_id line 0 = Some (i + 1)%Z) els (Diva2DMesh.i1 m)
  ∧ Forall2 (λ line i, corner_id line 2 = Some (i + 1)%Z) els (Diva2DMesh.i2 m)
  ∧ Forall2 (λ line i, corner_id line 4 = Some (i + 1)%Z) els (Diva2DMesh.i3 m).
Proof.
  intros Hfile H Hnn Hni. unfold Diva2DMesh.read_from in H.
  rewrite Hfile in H. destruct (fs !! filename2) as [text2|]; [|done].
  apply bind_Ok in H as ([[nn ni] ne] & _ & H).
  apply bind_Ok in H as ([[xnode ynode] f1] & E1 & H).
  apply bind_Ok in H as ([itf f2] & E2 & H).
  apply bind_Ok in H as ([[[l1 l2] l3] f3] & E3 & H).
  injection H as <-. simpl in Hnn, Hni |- *.
  unfold Diva2DMesh.turns in *.
  apply read_nodes_Ok in E1 as (_ & -> & _).
  apply read_interfaces_Ok in E2 as (_ & ->).
  apply read_elements_Ok in E3
    as (Hk & n1 & n2 & n3 & -> & -> & -> & H1 & H2 & H3).
  rewrite drop_drop in Hk, H1, H2, H3.
  replace (Z.to_nat (nn - 0)) with (Z.to_nat nn) in * by lia.
  replace (Z.to_nat (nn + ni - (0 + Z.of_nat (Z.to_nat nn))))
    with (Z.to_nat ni) in * by lia.
  replace (Z.to_nat (nn + ni + ne
                     - (0 + Z.of_nat (Z.to_nat nn) + Z.of_nat (Z.to_nat ni))))
    with (Z.to_nat ne) in * by lia.
  unfold element_lines. repeat split; try done.
  rewrite length_take. lia.
Qed.

(** One node and one element whose first corner is [nnodes + 1 = 2]: the
    file is read and [i1] holds [2 - 1 = 1], which is not below [nnodes]. *)
Lemma mesh_read_index_out_of_range :
  ∃ m, Diva2DMesh.read_from decimal_float
         {[ "fort.22" := text_of ["1 0.0 0.0"; "2 0 1 0 1 0"];
            "fort.23" := text_of ["1"; "0"; "1"] ]} "fort.22" "fort.23"
       = Ok m
       ∧ Diva2DMesh.nnodes m = 1%Z
       ∧ Diva2DMesh.i1 m = [1%Z]
       ∧ forallb (λ i, (0 <=? i)%Z && (i <? Diva2DMesh.nnodes m)%Z)
                 (Diva2DMesh.i1 m) = false.
Proof. eexists. repeat split. Qed.

Lemma mesh_read_rebased_witness :
  length (element_lines 1 0 1 (text_of ["1 0.0 0.0"; "2 0 1 0 1 0"])) = 1
  ∧ Forall2 (λ line i, corner_id line 0 = Some (i + 1)%Z)
      (element_lines 1 0 1 (text_of ["1 0.0 0.0"; "2 0 1 0 1 0"])) [1%Z]
  ∧ Forall2 (λ line i, corner_id line 2 = Some (i + 1)%Z)
      (element_lines 1 0 1 (text_of ["1 0.0 0.0"; "2 0 1 0 1 0"])) [0%Z]
  ∧ Forall2 (λ line i, corner_id line 4 = Some (i + 1)%Z)
      (element_lines 1 0 1 (text_of ["1 0.0 0.0"; "2 0 1 0 1 0"])) [0%Z].
Proof.
  refine (mesh_read_rebased decimal_float
            {[ "fort.22" := text_of ["1 0.0 0.0"; "2 0 1 0 1 0"];
               "fort.23" := text_of ["1"; "0"; "1"] ]}
            "fort.22" "fort.23" (text_of ["1 0.0 0.0"; "2 0 1 0 1 0"])
            {| Diva2DMesh.nnodes := 1; Diva2DMesh.ninterfaces := 0;
               Diva2DMesh.nelements := 1;
               Diva2DMesh.xnode := [0%float]; Diva2DMesh.ynode := [0%float];
               Diva2DMesh.i1 := [1%Z]; Diva2DMesh.i2 := [0%Z];
               Diva2DMesh.i3 := [0%Z] |} _ _ _ _);
    [reflexivity | reflexivity | simpl; lia | simpl; lia].
Defined.

(** A corner index 0 in the file is stored as -1, and a geometry file that
    lacks an element line is refused. *)
Example mesh_read_ex :
  Diva2DMesh.i1 <$>
    (match Diva2DMesh.read_from decimal_float
             {[ "fort.22" := text_of ["1 0.0 0.0"; "0 0 1 0 1 0"];
                "fort.23" := text_of ["1"; "0"; "1"] ]} "fort.22" "fort.23"
     with Ok m => Some m | Raise _ => None end)
  = Some [(-1)%Z]
  ∧ Diva2DMesh.read_from decimal_float
      {[ "fort.22" := text_of ["1 0.0 0.0"];
         "fort.23" := text_of ["1"; "0"; "1"] ]} "fort.22" "fort.23"
    = Raise IndexError.
Proof. split; reflexivity. Qed.

(** * More on Diva2DContours: what a reading returns, and what it refuses *)

Section ContoursReadMore.

Variable py_float : string → option float.
Variable py_str : float → string.

Local Tactic Notation "bind_ok" hyp(H) "as" ident(a) ident(E) :=
  apply bind_Ok in H as (a & E & H).

(** The inner loop appends to each list as many coordinates as its count. *)
Lemma read_points_app (n : nat) :
  ∀ xx yy f xx' yy' f',
    Diva2DContours.read_points py_float n xx yy f = Ok (xx', yy', f') →
    ∃ px py, xx' = xx ++ px ∧ yy' = yy ++ py
             ∧ length px = n ∧ length py = n ∧ f' = drop n f ∧ n ≤ length f.
Proof.
  induction n as [|n IH]; intros xx yy f xx' yy' f' H.
  - injection H as <- <- <-. exists [], [].
    rewrite !app_nil_r, drop_0. repeat split; simpl; lia.
  - cbn [Diva2DContours.read_points] in H.
    destruct f as [|coords f0]; [done|]. cbn [readline] in H.
    bind_ok H as tx Ex. bind_ok H as vx Evx.
    bind_ok H as ty Ey. bind_ok H as vy Evy.
    apply IH in H as (px & py & -> & -> & Hx & Hy & -> & Hn).
    exists (vx :: px), (vy :: py). rewrite <- !app_assoc.
    repeat split; simpl; try done; lia.
Qed.

(** The outer loop appends [n] polylines, each with as many [x] as [y]
    coordinates, and consumes one line per polyline and per point. *)
Lemma read_polylines_app (n : nat) :
  ∀ lon lat f lon' lat' f',
    Diva2DContours.read_polylines py_float n lon lat f = Ok (lon', lat', f') →
    ∃ nx ny, lon' = lon ++ nx ∧ lat' = lat ++ ny ∧ length nx = n
             ∧ Forall2 (λ xi yi, length xi = length yi) nx ny
             ∧ n + sum_list (length <$> nx) ≤ length f.
Proof.
  induction n as [|n IH]; intros lon lat f lon' lat' f' H.
  - injection H as <- <- <-. exists [], [].
    rewrite !app_nil_r. repeat split; simpl; try done; lia.
  - cbn [Diva2DContours.read_polylines] in H.
    destruct f as [|line f0]; [done|]. cbn [readline] in H.
    bind_ok H as tok Et. bind_ok H as p Ep.
    bind_ok H as pts Epts. destruct pts as [[xx yy] f1].
    apply read_points_app in Epts as (px & py & -> & -> & Hx & Hy & -> & Hp).
    apply IH in H as (nx & ny & -> & -> & Hn & Hl & Hs).
    exists (px :: nx), (py :: ny). rewrite <- !app_assoc.
    rewrite length_drop in Hs. simpl.
    repeat split; try done.
    + lia.
    + constructor; [lia | done].
    + change (list_fmap (list float) nat length nx) with (length <$> nx). lia.
Qed.

(** Reading goes on after the polylines of a rendered text. *)
Lemma read_polylines_render_more (xs : list (list float)) :
  ∀ ys m rest lon lat,
    Forall2 (λ xi yi, length xi = length yi) xs ys →
    Forall (Forall (printable py_float py_str)) xs →
    Forall (Forall (printable py_float py_str)) ys →
    Diva2DContours.read_polylines py_float (length xs + m) lon lat
      (lines (render_blocks py_str xs ys +:+ rest))
    = Diva2DContours.read_polylines py_float m (lon ++ xs) (lat ++ ys)
        (lines rest).
Proof.
  induction xs as [|xi xs IH]; intros ys m rest lon lat Hl Hx Hy.
  - apply Forall2_nil_inv_l in Hl as ->. by rewrite !app_nil_r.
  - apply Forall2_cons_inv_l in Hl as (yi & ys' & Hi & Hl & ->).
    apply Forall_cons in Hx as [Hxi Hx]. apply Forall_cons in Hy as [Hyi Hy].
    unfold render_blocks. cbn [zip zip_with foldr].
    fold (render_blocks py_str xs ys').
    rewrite lines_line_app
      by (apply no_space_no_newline, no_space_str_int).
    rewrite append_assoc.
    cbn [length Nat.add Diva2DContours.read_polylines readline].
    rewrite split_one by apply is_token_str_int. simpl.
    rewrite int_str_int. simpl. rewrite Nat2Z.id.
    rewrite read_points_render by done. simpl.
    rewrite IH by done. by rewrite <- !app_assoc.
Qed.

(** Pairs are written up to the shorter of the two coordinate lists. *)
Lemma render_points_take (xi : list float) :
  ∀ yi, render_points py_str xi yi
        = render_points py_str xi (take (length xi) yi).
Proof.
  unfold render_points.
  induction xi as [|x0 xi IH]; intros yi; [by destruct yi|].
  destruct yi as [|y0 yi]; [done|]. cbn [length take zip zip_with foldr].
  f_equal. f_equal. apply IH.
Qed.

Lemma render_blocks_take (xs : list (list float)) :
  ∀ ys, render_blocks py_str xs ys
        = render_blocks py_str xs
            (zip_with (λ xi yi, take (length xi) yi) xs ys).
Proof.
  unfold render_blocks.
  induction xs as [|xi xs IH]; intros ys; [by destruct ys|].
  destruct ys as [|yi ys]; [done|]. cbn [zip zip_with foldr].
  rewrite <- render_points_take. f_equal. f_equal. f_equal. apply IH.
Qed.

(** A polyline written with fewer coordinate lines than its count cannot
    be read: the line that follows is missing or holds a single token. *)
Lemma read_points_short (xi : list float) :
  ∀ yi rest xx yy,
    length yi < length xi →
    Forall (printable py_float py_str) xi →
    Forall (printable py_float py_str) yi →
    match lines rest with
    | [] => True
    | l :: _ => length (split l) ≤ 1
    end →
    ∃ e, Diva2DContours.read_points py_float (length xi) xx yy
           (lines (render_points py_str xi yi +:+ rest)) = Raise e
         ∧ ParseError e.
Proof.
  induction xi as [|x0 xi IH]; intros yi rest xx yy Hl Hx Hy Hrest.
  - simpl in Hl. lia.
  - apply Forall_cons in Hx as [Hx0 Hx]. destruct yi as [|y0 yi].
    + unfold render_points. cbn [zip zip_with foldr]. rewrite append_nil_l.
      cbn [length Diva2DContours.read_points].
      destruct (lines rest) as [|l f]; cbn [readline].
      * exists IndexError. split; [done | by left].
      * destruct (split l) as [|t [|t' ts]]; [| |simpl in Hrest; lia].
        -- exists IndexError. split; [done | by left].
        -- cbn [getitem lookup list_lookup]. simpl.
           destruct (float_of py_float t) as [v|e] eqn:E; simpl.
           ++ exists IndexError. split; [done | by left].
           ++ exists e. split; [done|]. right. by eapply float_of_Raise.
    + apply Forall_cons in Hy as [Hy0 Hy].
      destruct (printable_line py_float py_str x0 y0 Hx0 Hy0) as [Hnl Hsplit].
      unfold render_points. cbn [zip zip_with foldr].
      fold (render_points py_str xi yi). rewrite lines_line_app by done.
      cbn [length Diva2DContours.read_points readline].
      rewrite Hsplit. simpl. unfold float_of.
      destruct Hx0 as [_ ->]. destruct Hy0 as [_ ->]. simpl.
      apply IH; try done. simpl in Hl. lia.
Qed.

(** The first line of the records of polylines holds one token. *)
Lemma render_blocks_head (xs ys : list (list float)) :
  match lines (render_blocks py_str xs ys +:+ EmptyString) with
  | [] => True
  | l :: _ => length (split l) ≤ 1
  end.
Proof.
  unfold render_blocks. destruct xs as [|xi xs]; [done|].
  destruct ys as [|yi ys]; [done|]. cbn [zip zip_with foldr].
  rewrite lines_line_app by (apply no_space_no_newline, no_space_str_int).
  by rewrite split_one by apply is_token_str_int.
Qed.

End ContoursReadMore.

(** X1 (Diva2DContours.read_from).  A contour set returned by [read_from]
    holds as many polylines as the first line of the file declares (none
    for a negative count), every polyline has as many [x] as [y]
    coordinates, and the file holds one line per polyline and per point
    after its first line. *)
Theorem contours_read_counts (ragged : bool)
  (py_float : string → option float)
  (fs : filesystem) (filename : string) (c : Diva2DContours.t) :
  Diva2DContours.read_from ragged py_float fs filename = Ok c →
  ∃ text line rest n lon lat,
    fs !! filename = Some text ∧ lines text = line :: rest
    ∧ declared line = Some n
    ∧ c = Diva2DContours.of_arrays lon lat
    ∧ length lon = Z.to_nat n
    ∧ Forall2 (λ xi yi, length xi = length yi) lon lat
    ∧ length lon + sum_list (length <$> lon) ≤ length rest.
Proof.
  unfold Diva2DContours.read_from, Diva2DContours.read_text.
  destruct (fs !! filename) as [text|]; [|done]. intros H.
  destruct (lines text) as [|line rest] eqn:El; [done|]. cbn [readline] in H.
  apply bind_Ok in H as (tok & Et & H). apply bind_Ok in H as (n & En & H).
  apply bind_Ok in H as ([[lon lat] f] & Ep & H).
  apply bind_Ok in H as (ax & [-> _]%np_array2_inv & H).
  apply bind_Ok in H as (ay & [-> _]%np_array2_inv & H). injection H as <-.
  apply read_polylines_app in Ep as (nx & ny & -> & -> & Hn & Hl & Hs).
  exists text, line, rest, n, nx, ny. repeat split; try done.
  - unfold declared, getitem, int in *.
    destruct (split line) as [|t ts]; [done|]. injection Et as ->.
    by destruct (py_int tok) as [z|]; [injection En as ->|].
  - by rewrite Hn.
Qed.

Lemma contours_read_counts_witness :
  ∃ text line rest n lon lat,
    ({[ "coast.cont" :=
          text_of ["2"; "2"; "0.5 1.5"; "1 2"; "2"; "3 4"; "5 6"] ]}
       : filesystem) !! "coast.cont" = Some text
    ∧ lines text = line :: rest
    ∧ declared line = Some n
    ∧ Diva2DContours.of_arrays [[0.5; 1]; [3; 5]]%float
                               [[1.5; 2]; [4; 6]]%float
      = Diva2DContours.of_arrays lon lat
    ∧ length lon = Z.to_nat n
    ∧ Forall2 (λ xi yi, length xi = length yi) lon lat
    ∧ length lon + sum_list (length <$> lon) ≤ length rest.
Proof.
  apply (contours_read_counts false decimal_float
           {[ "coast.cont" :=
                text_of ["2"; "2"; "0.5 1.5"; "1 2"; "2"; "3 4"; "5 6"] ]}
           "coast.cont").
  reflexivity.
Defined.

(** X2 (Diva2DContours.read_from).  On a file that is absent [read_from]
    raises [FileNotFoundError].  On a file that is present it raises
    nothing but [IndexError] and [ValueError]: the [IndexError] of a
    missing token, the [ValueError] of a token that is not a number, and
    the [ValueError] of [np.array] where it refuses the polylines read
    because their lengths differ. *)
Theorem contours_read_errors (ragged : bool)
  (py_float : string → option float)
  (fs : filesystem) (filename : string) :
  match fs !! filename with
  | None =>
      Diva2DContours.read_from ragged py_float fs filename
      = Raise FileNotFoundError
  | Some _ =>
      ∀ e, Diva2DContours.read_from ragged py_float fs filename = Raise e →
           e = IndexError ∨ e = ValueError
  end.
Proof.
  unfold Diva2DContours.read_from, Diva2DContours.read_text.
  destruct (fs !! filename) as [text|]; [|done].
  intros e H.
  destruct (readline (lines text)) as [line f].
  apply bind_Raise in H as [H|(tok & _ & H)];
    [left; by eapply getitem_Raise|].
  apply bind_Raise in H as [H|(n & _ & H)]; [right; by eapply int_Raise|].
  apply bind_Raise in H as [H|([[lon lat] f'] & _ & H)];
    [by eapply read_polylines_Raise|].
  apply bind_Raise in H as [H|(ax & _ & H)];
    [right; by apply np_array2_Raise in H as [-> _]|].
  apply bind_Raise in H as [H|(ay & _ & H)]; [|done].
  right. by apply np_array2_Raise in H as [-> _].
Qed.

(** An absent file; a token that is not a number; polylines of one and of
    two points where [np.array] refuses them. *)
Lemma contours_read_errors_witness :
  Diva2DContours.read_from false decimal_float ∅ "coast.cont"
  = Raise FileNotFoundError
  ∧ (ValueError = IndexError ∨ ValueError = ValueError)
  ∧ (ValueError = IndexError ∨ ValueError = ValueError).
Proof.
  split; [|split].
  - exact (contours_read_errors false decimal_float ∅ "coast.cont").
  - refine (contours_read_errors false decimal_float
              {[ "coast.cont" := text_of ["1"; "2"; "0.5 abc"] ]} "coast.cont"
              ValueError _).
    reflexivity.
  - refine (contours_read_errors false decimal_float
              {[ "coast.cont" := text_of ["2"; "1"; "0.5 1.5"; "2"; "1 2";
                                          "3 4"] ]} "coast.cont"
              ValueError _).
    reflexivity.
Defined.

Example contours_read_errors_ex :
  Diva2DContours.read_from false decimal_float
    {[ "coast.cont" := text_of ["1"; "2"; "0.5 abc"] ]} "coast.cont"
  = Raise ValueError
  ∧ Diva2DContours.read_from false decimal_float
      {[ "coast.cont" := text_of ["2"; "1"; "0.5 1.5"; "2"; "1 2"; "3 4"] ]}
      "coast.cont"
    = Raise ValueError
  ∧ Diva2DContours.read_from true decimal_float
      {[ "coast.cont" := text_of ["2"; "1"; "0.5 1.5"; "2"; "1 2"; "3 4"] ]}
      "coast.cont"
    = Ok (Diva2DContours.of_arrays [[0.5]; [1; 3]]%float
                                   [[1.5]; [2; 4]]%float).
Proof. repeat split. Qed.

(** X3 (Diva2DContours.read_from).  Whatever follows the declared records
    in the file is not read: a written contour set followed by any text is
    read back as the contour set, where [np.array] accepts the polylines
    read: all of one length, or of any lengths where [np.array] allows
    it. *)
Theorem contours_read_ignores_trailing (ragged : bool)
  (py_float : string → option float)
  (py_str : float → string) (xs ys : list (list float))
  (fs : filesystem) (filename extra : string) :
  Forall2 (λ xi yi, length xi = length yi) xs ys →
  Forall (Forall (printable py_float py_str)) xs →
  Forall (Forall (printable py_float py_str)) ys →
  ragged = true ∨ same_lengths xs = true →
  fs !! filename = Some (render py_str xs ys +:+ extra) →
  Diva2DContours.read_from ragged py_float fs filename
  = Ok (Diva2DContours.of_arrays xs ys).
Proof.
  intros Hl Hx Hy Hr Hfile.
  unfold Diva2DContours.read_from, Diva2DContours.read_text.
  rewrite Hfile. unfold render.
  rewrite lines_line_app by (apply no_space_no_newline, no_space_str_int).
  cbn [readline]. rewrite split_one by apply is_token_str_int. simpl.
  rewrite int_str_int. simpl. rewrite Nat2Z.id.
  rewrite (read_polylines_render py_float py_str) by done. simpl.
  rewrite (np_array2_Ok ragged xs Hr). simpl.
  rewrite np_array2_Ok; [done|].
  by rewrite <- (same_lengths_Forall2 xs ys Hl).
Qed.

Lemma contours_read_ignores_trailing_witness :
  Diva2DContours.read_from false decimal_float
    {[ "coast.cont" :=
         render repr_halves [[0; 1.5]; [3; 4]]%float [[2; 0.5]; [5; 6]]%float
         +:+ "not a number" ]} "coast.cont"
  = Ok (Diva2DContours.of_arrays [[0; 1.5]; [3; 4]]%float
                                 [[2; 0.5]; [5; 6]]%float).
Proof.
  apply (contours_read_ignores_trailing false decimal_float repr_halves
           [[0; 1.5]; [3; 4]]%float [[2; 0.5]; [5; 6]]%float _ _
           "not a number");
    repeat first [apply Forall2_nil | apply Forall2_cons | apply List.Forall_nil
                 | apply List.Forall_cons | split | reflexivity
                 | (right; reflexivity)].
Defined.

(** X4 (Diva2DContours.write_to, then read_from).  When every polyline has
    at least as many [y] as [x] coordinates, [write_to] writes the pairs up
    to the last [x] and drops the [y] coordinates beyond: reading the file
    back returns the [x] polylines and the [y] polylines cut to their
    lengths, where [np.array] accepts the polylines read: the [x] polylines
    all of one length, or of any lengths where [np.array] allows it. *)
Theorem contours_write_read_cuts_y (ragged : bool)
  (py_float : string → option float)
  (py_str : float → string) (xs ys : list (list float))
  (fs : filesystem) (filename : string) :
  Forall2 (λ xi yi, length xi ≤ length yi) xs ys →
  Forall (Forall (printable py_float py_str)) xs →
  Forall (Forall (printable py_float py_str)) ys →
  ragged = true ∨ same_lengths xs = true →
  ∃ fs',
    Diva2DContours.write_to py_str (Diva2DContours.of_arrays xs ys) fs filename
    = Ok fs'
    ∧ Diva2DContours.read_from ragged py_float fs' filename
      = Ok (Diva2DContours.of_arrays xs
              (zip_with (λ xi yi, take (length xi) yi) xs ys)).
Proof.
  intros Hl Hx Hy Hr. exists (<[filename := render py_str xs ys]> fs).
  unfold Diva2DContours.write_to, Diva2DContours.read_from.
  rewrite write_text_render by by eapply Forall2_length.
  split; [done|]. unfold filesystem in *. simpl. rewrite lookup_insert_eq.
  unfold render. rewrite render_blocks_take.
  apply (read_text_render ragged py_float py_str).
  - clear Hx Hy Hr. induction Hl as [|xi yi xs ys Hi _ IH]; cbn [zip_with].
    + constructor.
    + constructor; [|done]. rewrite length_take. lia.
  - done.
  - clear Hx Hr. revert Hy. induction Hl as [|xi yi xs ys Hi _ IH];
      cbn [zip_with]; intros Hy; [constructor|].
    apply Forall_cons in Hy as [Hyi Hy]. constructor; [|by apply IH].
    by apply Forall_take.
  - done.
Qed.

Lemma contours_write_read_cuts_y_witness :
  ∃ fs',
    Diva2DContours.write_to repr_halves
      (Diva2DContours.of_arrays [[0; 1.5]; [3; 4]]%float
                                [[0; 1; 2.5]; [4.5; 5]]%float)
      ∅ "coast.cont"
    = Ok fs'
    ∧ Diva2DContours.read_from false decimal_float fs' "coast.cont"
      = Ok (Diva2DContours.of_arrays [[0; 1.5]; [3; 4]]%float
                                     [[0; 1]; [4.5; 5]]%float).
Proof.
  apply (contours_write_read_cuts_y false decimal_float repr_halves
           [[0; 1.5]; [3; 4]]%float [[0; 1; 2.5]; [4.5; 5]]%float);
    repeat first [apply Forall2_nil | apply Forall2_cons | apply List.Forall_nil
                 | apply List.Forall_cons | split | reflexivity
                 | (simpl; lia) | (right; reflexivity)].
Defined.

(** X5 (Diva2DContours.write_to, then read_from).  When a polyline has
    more [x] than [y] coordinates (the polylines before it having no more
    [x] than [y]), [write_to] still succeeds: it declares the number of
    [x] coordinates and writes fewer lines.  [read_from] refuses the
    written file. *)
Theorem contours_write_read_short_y (ragged : bool)
  (py_float : string → option float)
  (py_str : float → string) (px py sx sy : list (list float))
  (xi yi : list float) (fs : filesystem) (filename : string) :
  Forall2 (λ xi yi, length xi ≤ length yi) px py →
  length yi < length xi →
  length sx = length sy →
  Forall (Forall (printable py_float py_str)) (px ++ xi :: sx) →
  Forall (Forall (printable py_float py_str)) (py ++ yi :: sy) →
  ∃ fs' e,
    Diva2DContours.write_to py_str
      (Diva2DContours.of_arrays (px ++ xi :: sx) (py ++ yi :: sy)) fs filename
    = Ok fs'
    ∧ Diva2DContours.read_from ragged py_float fs' filename = Raise e
    ∧ ParseError e.
Proof.
  intros Hp Hi Hs Hx Hy.
  set (xs := px ++ xi :: sx). set (ys := py ++ yi :: sy).
  assert (Hlen : length xs = length ys).
  { unfold xs, ys. rewrite !length_app. simpl.
    apply Forall2_length in Hp. lia. }
  set (py' := zip_with (λ xi yi, take (length xi) yi) px py).
  assert (Hp' : Forall2 (λ xi yi, length xi = length yi) px py').
  { unfold py'. clear -Hp. induction Hp as [|a b l k Hab _ IH]; cbn [zip_with];
      constructor; [rewrite length_take; lia | done]. }
  apply Forall_app in Hx as [Hpx Hx]. apply Forall_cons in Hx as [Hxi Hsx].
  apply Forall_app in Hy as [Hpy Hy]. apply Forall_cons in Hy as [Hyi Hsy].
  assert (Hpy' : Forall (Forall (printable py_float py_str)) py').
  { unfold py'. clear -Hp Hpy. revert Hpy.
    induction Hp as [|a b l k Hab _ IH]; cbn [zip_with]; intros Hpy;
      [constructor|].
    apply Forall_cons in Hpy as [Hb Hk]. constructor; [|by apply IH].
    by apply Forall_take. }
  assert (Hblocks : render_blocks py_str xs ys
                    = render_blocks py_str px py'
                      +:+ (str_int (Z.of_nat (length xi)) +:+ nl
                           +:+ render_points py_str xi yi
                           +:+ render_blocks py_str sx sy)).
  { unfold xs, ys, py'. clear -Hp.
    induction Hp as [|a b l k Hab _ IH]; [done|].
    unfold render_blocks in *. cbn [app zip zip_with foldr].
    rewrite IH, <- (render_points_take py_str a b).
    by rewrite !append_assoc. }
  destruct (read_points_short py_float py_str xi yi
              (render_blocks py_str sx sy +:+ EmptyString) [] []
              Hi Hxi Hyi (render_blocks_head py_str sx sy)) as (e & He & Hpe).
  exists (<[filename := render py_str xs ys]> fs), e.
  unfold Diva2DContours.write_to, Diva2DContours.read_from.
  rewrite write_text_render by done.
  split; [done|]. split; [|done].
  unfold filesystem in *. simpl. rewrite lookup_insert_eq.
  unfold Diva2DContours.read_text, render.
  rewrite lines_line by (apply no_space_no_newline, no_space_str_int).
  cbn [readline]. rewrite split_one by apply is_token_str_int. simpl.
  rewrite int_str_int. simpl. rewrite Nat2Z.id.
  rewrite Hblocks.
  rewrite <- (append_nil_r (render_blocks py_str px py' +:+ _)).
  rewrite append_assoc.
  replace (length xs) with (length px + S (length sx))
    by (unfold xs; rewrite length_app; simpl; lia).
  rewrite (read_polylines_render_more py_float py_str) by done.
  cbn [Diva2DContours.read_polylines].
  rewrite !append_assoc.
  rewrite lines_line by (apply no_space_no_newline, no_space_str_int).
  cbn [readline]. rewrite split_one by apply is_token_str_int. simpl.
  rewrite int_str_int. simpl. rewrite Nat2Z.id.
  by rewrite He.
Qed.

Lemma contours_write_read_short_y_witness :
  ∃ fs' e,
    Diva2DContours.write_to repr_halves
      (Diva2DContours.of_arrays ([[0; 1]] ++ [2; 3; 4] :: [[5]])%float
                                ([[0; 1]] ++ [2; 3] :: [[5]])%float)
      ∅ "coast.cont"
    = Ok fs'
    ∧ Diva2DContours.read_from false decimal_float fs' "coast.cont" = Raise e
    ∧ ParseError e.
Proof.
  apply (contours_write_read_short_y false decimal_float repr_halves
           [[0; 1]]%float [[0; 1]]%float [[5]]%float [[5]]%float
           [2; 3; 4]%float [2; 3]%float);
    repeat first [apply Forall2_nil | apply Forall2_cons | apply List.Forall_nil
                 | apply List.Forall_cons | split | reflexivity
                 | (simpl; lia)].
Defined.

(** X6 (Diva2DContours.get_contours_number, get_points_number).  On a
    contour set that holds arrays, the number of contours is the number of
    [x] polylines and the numbers of points are their lengths, in order;
    the [y] polylines play no part. *)
Theorem contours_numbers_arrays (xs ys : list (list float)) :
  Diva2DContours.get_contours_number (Diva2DContours.of_arrays xs ys)
  = Ok (length xs)
  ∧ Diva2DContours.get_points_number (Diva2DContours.of_arrays xs ys)
    = Ok (length <$> xs).
Proof.
  split; [done|]. unfold Diva2DContours.get_points_number. simpl.
  by apply (points_number_arrays xs ys xs [] []).
Qed.

(** * More on Diva2DData: writing, reading, building *)

Section DataMore.

Variable py_float : string → option float.
Variable py_str : float → string.

Lemma split_four (a b c d : string) :
  is_token a = true → is_token b = true → is_token c = true →
  is_token d = true →
  split ((a +:+ " " +:+ b +:+ " " +:+ c +:+ " " +:+ d) +:+ nl) = [a; b; c; d].
Proof.
  intros Ha Hb Hc Hd. rewrite !append_assoc.
  rewrite (split_token a) by done. rewrite append_cons, append_nil_l.
  cbn [split]. change (isspace " ") with true. cbn iota.
  rewrite (split_token b) by done. rewrite append_cons, append_nil_l.
  cbn [split]. change (isspace " ") with true. cbn iota.
  rewrite (split_token c) by done. rewrite append_cons, append_nil_l.
  cbn [split]. change (isspace " ") with true. cbn iota.
  by rewrite split_one.
Qed.

Lemma no_newline_four (a b c d : string) :
  is_token a = true → is_token b = true → is_token c = true →
  is_token d = true →
  no_newline (a +:+ " " +:+ b +:+ " " +:+ c +:+ " " +:+ d) = true.
Proof.
  intros Ha Hb Hc Hd. rewrite !no_newline_app.
  by rewrite (no_space_no_newline a), (no_space_no_newline b),
    (no_space_no_newline c), (no_space_no_newline d)
    by by apply is_token_no_space.
Qed.

Lemma spec_rows_render (rs : list row) :
  Forall (printable_row py_float py_str) rs →
  spec_rows py_float (lines (render_rows py_str rs)) = Ok rs.
Proof.
  induction 1 as [|r rs (Hx & Hy & Hv & Hw) _ IH]; [done|].
  unfold render_rows. cbn [foldr]. fold (render_rows py_str rs).
  destruct Hx as [Tx Fx], Hy as [Ty Fy], Hv as [Tv Fv], Hw as [Tw Fw].
  rewrite lines_line by by apply no_newline_four.
  cbn [spec_rows]. unfold spec_row. rewrite split_four by done.
  replace (3 <=? length [py_str (row_x r); py_str (row_y r);
                         py_str (row_value r); py_str (row_weight r)])
    with true by done.
  unfold float_of. rewrite Fx, Fy, Fv, Fw. simpl. rewrite IH. simpl.
  by destruct r as [[[? ?] ?] ?].
Qed.

Lemma foldl_write_row (l : list (num * (num * (num * num)))) :
  ∀ out, foldl (Diva2DData.write_row py_str) out l
         = out +:+ foldl (Diva2DData.write_row py_str) EmptyString l.
Proof.
  induction l as [|r l IH]; intros out; cbn [foldl].
  - by rewrite append_nil_r.
  - rewrite IH. rewrite (IH (Diva2DData.write_row py_str EmptyString r)).
    destruct r as (xx & yy & zz & ww). unfold Diva2DData.write_row.
    by rewrite append_nil_l, !append_assoc.
Qed.

Lemma write_rows_render (rs : list row) :
  foldl (Diva2DData.write_row py_str) EmptyString
    (zip (NFloat <$> (row_x <$> rs))
       (zip (NFloat <$> (row_y <$> rs))
          (zip (NFloat <$> (row_value <$> rs))
               (NFloat <$> (row_weight <$> rs)))))
  = render_rows py_str rs.
Proof.
  induction rs as [|r rs IH]; [done|].
  unfold render_rows. cbn [fmap list_fmap zip zip_with foldl foldr].
  rewrite foldl_write_row. fold (render_rows py_str rs).
  change (list_fmap _ _ ?f ?l) with (f <$> l) in *.
  rewrite IH. unfold Diva2DData.write_row, Diva2DData.str_num.
  by rewrite append_nil_l, !append_assoc.
Qed.


Lemma spec_rows_length (f : file) (rs : list row) :
  spec_rows py_float f = Ok rs → length rs ≤ length f.
Proof.
  revert rs. induction f as [|line f IH]; intros rs.
  - intros [= <-]. done.
  - cbn [spec_rows]. destruct (3 <=? length (split line)).
    + intros H. apply bind_Ok in H as (r & _ & H).
      apply bind_Ok in H as (rs' & E & H). injection H as <-.
      apply IH in E. simpl. lia.
    + intros [= <-]. simpl. lia.
Qed.

End DataMore.

(** X7 (Diva2DData.write_to, then read_from).  A data set of four columns
    of floats of one length, each printed as a token that [float] reads
    back, is written with one line of four tokens per row, and [read_from]
    on the written file returns the same data set, weights included. *)
Theorem data_write_read (py_float : string → option float)
  (py_str : float → string) (rs : list row)
  (fs : filesystem) (filename : string) :
  Forall (printable_row py_float py_str) rs →
  ∃ fs',
    Diva2DData.write_to py_str (data_of_rows rs) fs filename = Ok fs'
    ∧ Diva2DData.read_from py_float fs' filename = Ok (data_of_rows rs).
Proof.
  intros Hrs. exists (<[filename := render_rows py_str rs]> fs).
  unfold Diva2DData.write_to, Diva2DData.write_text, data_of_rows,
    Diva2DData.of_columns.
  cbn [Diva2DData.x Diva2DData.y Diva2DData.field Diva2DData.weight
       getattr items].
  simpl. rewrite write_rows_render. split; [done|].
  unfold Diva2DData.read_from. unfold filesystem in *.
  rewrite lookup_insert_eq, read_rows_spec.
  by rewrite (spec_rows_render py_float py_str).
Qed.

Lemma data_write_read_witness :
  ∃ fs',
    Diva2DData.write_to repr_halves
      (data_of_rows [(1, 2, 10.5, 1); (3.5, 4, 0.5, 2)]%float) ∅ "data.dat"
    = Ok fs'
    ∧ Diva2DData.read_from decimal_float fs' "data.dat"
      = Ok (data_of_rows [(1, 2, 10.5, 1); (3.5, 4, 0.5, 2)]%float).
Proof.
  apply (data_write_read decimal_float repr_halves
           [(1, 2, 10.5, 1); (3.5, 4, 0.5, 2)]%float);
    repeat first [apply List.Forall_nil | apply List.Forall_cons | split
                 | reflexivity].
Defined.



(** X9 (Diva2DData.read_from, count_data).  The four arrays of a data set
    returned by [read_from] have one length, at most the number of lines
    of the file, and [count_data] returns it. *)
Theorem data_read_columns (py_float : string → option float)
  (fs : filesystem) (filename text : string) (self : Diva2DData.t) :
  fs !! filename = Some text →
  Diva2DData.read_from py_float fs filename = Ok self →
  ∃ lon lat fld wgt,
    self = Diva2DData.of_columns lon lat fld wgt
    ∧ length lat = length lon ∧ length fld = length lon
    ∧ length wgt = length lon
    ∧ length lon ≤ length (lines text)
    ∧ Diva2DData.count_data self = Ok (length lon).
Proof.
  intros Hfile. unfold Diva2DData.read_from. rewrite Hfile, read_rows_spec.
  intros H. apply bind_Ok in H as ([[[lon lat] fld] wgt] & E & H).
  injection H as <-. apply bind_Ok in E as (rs & Ers & E).
  injection E as <- <- <- <-. apply spec_rows_length in Ers.
  exists (row_x <$> rs), (row_y <$> rs), (row_value <$> rs),
    (row_weight <$> rs).
  rewrite !length_fmap. repeat split; try done.
  unfold Diva2DData.count_data. simpl. by rewrite !length_fmap.
Qed.

Lemma data_read_columns_witness :
  ∃ lon lat fld wgt,
    Diva2DData.of_columns [1; 3.5]%float [2; 4]%float [10.5; 0.5]%float
        [1; 2]%float
    = Diva2DData.of_columns lon lat fld wgt
    ∧ length lat = length lon ∧ length fld = length lon
    ∧ length wgt = length lon
    ∧ length lon
      ≤ length (lines (text_of ["1.0 2.0 10.5"; "3.5 4.0 0.5 2.0"; "";
                                "5.0 6.0 7.0"]))
    ∧ Diva2DData.count_data
        (Diva2DData.of_columns [1; 3.5]%float [2; 4]%float [10.5; 0.5]%float
        [1; 2]%float)
      = Ok (length lon).
Proof.
  apply (data_read_columns decimal_float
           {[ "data.dat" := text_of ["1.0 2.0 10.5"; "3.5 4.0 0.5 2.0"; "";
                                     "5.0 6.0 7.0"] ]} "data.dat");
    reflexivity.
Defined.

(** X10 (Diva2DData.__init__).  When the constructor returns, either the
    four attributes are arrays of one length, or no attribute holds a
    sequence: each is [None] or was never assigned. *)
Theorem data_init_all_or_nothing (ax ay afield aweight : pyseq num)
  (self : Diva2DData.t) :
  Diva2DData.init ax ay afield aweight = Ok self →
  (∃ lx ly lf lw,
     self = {| Diva2DData.x := Some (PyArray lx);
               Diva2DData.y := Some (PyArray ly);
               Diva2DData.field := Some (PyArray lf);
               Diva2DData.weight := Some (PyArray lw) |}
     ∧ length lx = length ly ∧ length lx = length lf
     ∧ length lf = length lw)
  ∨ Forall (λ a, a = None ∨ a = Some PyNone)
      [Diva2DData.x self; Diva2DData.y self; Diva2DData.field self;
       Diva2DData.weight self].
Proof.
  unfold Diva2DData.init. intros H.
  destruct ax as [|lx|lx|]; try done; destruct ay as [|ly|ly|]; try done;
    destruct afield as [|lf|lf|]; try done;
    destruct aweight as [|lw|lw|]; try done; simpl in H;
    repeat (case_bool_decide; simpl in H; try done);
    injection H as <-;
    first [ right; repeat constructor; by auto
          | left; do 4 eexists; split; [reflexivity|];
            rewrite ?length_replicate in *; by repeat split ].
Qed.

Lemma data_init_all_or_nothing_witness :
  (∃ lx ly lf lw,
     {| Diva2DData.x := None; Diva2DData.y := Some PyNone;
        Diva2DData.field := None; Diva2DData.weight := None |}
     = {| Diva2DData.x := Some (PyArray lx);
          Diva2DData.y := Some (PyArray ly);
          Diva2DData.field := Some (PyArray lf);
          Diva2DData.weight := Some (PyArray lw) |}
     ∧ length lx = length ly ∧ length lx = length lf
     ∧ length lf = length lw)
  ∨ Forall (λ a, a = None ∨ a = Some PyNone)
      [None; Some PyNone; None; (None : option (pyseq num))].
Proof.
  apply (data_init_all_or_nothing (PyList [NInt 1; NInt 2; NInt 3]) PyNone
           (PyList [NInt 1; NInt 2]) PyNone).
  reflexivity.
Defined.

Lemma data_init_length_mismatch_witness :
  Diva2DData.init (PyList [NInt 1; NInt 2; NInt 3])
                  (PyArray [NInt 1; NInt 2; NInt 3])
                  (PyList [NInt 1; NInt 2]) (PyList [NInt 1; NInt 1])
  = Raise (Exception "Input vectors have not the same length").
Proof.
  apply (data_init_length_mismatch _ _ _ _ [NInt 1; NInt 2; NInt 3]
           [NInt 1; NInt 2; NInt 3] [NInt 1; NInt 2]);
    [reflexivity | reflexivity | reflexivity | discriminate
    | intros (_ & H & _); simpl in H; lia].
Defined.

(** Lists of [int]s stay [int]s; a list that mixes [int] and [float], here
    the values, becomes an array of [float]s. *)
Lemma data_init_default_weight_witness :
  Diva2DData.init (PyList [NInt 1; NInt 2]) (PyList [NFloat 3; NFloat 4])
                  (PyList [NFloat 5; NInt 6]) PyNone
  = Ok {| Diva2DData.x := Some (PyArray [NInt 1; NInt 2]);
          Diva2DData.y := Some (PyArray [NFloat 3; NFloat 4]);
          Diva2DData.field := Some (PyArray [NFloat 5; NFloat 6]);
          Diva2DData.weight := Some (PyArray [NInt 1; NInt 1]) |}.
Proof.
  apply (data_init_default_weight [NInt 1; NInt 2] [NFloat 3; NFloat 4]
           [NFloat 5; NInt 6]); reflexivity.
Defined.

(** * More on Diva2DMesh: sizes, failures, the geometry of the elements *)

Section MeshMore.

Variable py_float : string → option float.





End MeshMore.

(** What the three loops of [read_from] leave: the coordinates of the
    nodes, the lines that each loop has found, and the indices read from
    the element lines. *)
Lemma mesh_read_parts (py_float : string → option float)
  (fs : filesystem) (filename1 filename2 text1 : string) (m : Diva2DMesh.t) :
  fs !! filename1 = Some text1 →
  Diva2DMesh.read_from py_float fs filename1 filename2 = Ok m →
  (0 ≤ Diva2DMesh.nnodes m)%Z → (0 ≤ Diva2DMesh.ninterfaces m)%Z →
  length (Diva2DMesh.xnode m) = Z.to_nat (Diva2DMesh.nnodes m)
  ∧ length (Diva2DMesh.ynode m) = Z.to_nat (Diva2DMesh.nnodes m)
  ∧ Z.to_nat (Diva2DMesh.nnodes m) ≤ length (lines text1)
  ∧ Z.to_nat (Diva2DMesh.ninterfaces m)
    ≤ length (drop (Z.to_nat (Diva2DMesh.nnodes m)) (lines text1))
  ∧ Z.to_nat (Diva2DMesh.nelements m)
    ≤ length (drop (Z.to_nat (Diva2DMesh.nnodes m)
                    + Z.to_nat (Diva2DMesh.ninterfaces m)) (lines text1))
  ∧ length (Diva2DMesh.i1 m) = length (Diva2DMesh.i2 m)
  ∧ length (Diva2DMesh.i1 m) = length (Diva2DMesh.i3 m)
  ∧ length (Diva2DMesh.i1 m)
    = length (element_lines (Diva2DMesh.nnodes m) (Diva2DMesh.ninterfaces m)
                            (Diva2DMesh.nelements m) text1).
Proof.
  intros Hfile H Hnn Hni. unfold Diva2DMesh.read_from in H.
  rewrite Hfile in H. destruct (fs !! filename2) as [text2|]; [|done].
  apply bind_Ok in H as ([[nn ni] ne] & _ & H).
  apply bind_Ok in H as ([[xnode ynode] f1] & E1 & H).
  apply bind_Ok in H as ([itf f2] & E2 & H).
  apply bind_Ok in H as ([[[l1 l2] l3] f3] & E3 & H).
  injection H as <-. simpl in Hnn, Hni |- *.
  unfold Diva2DMesh.turns in *.
  replace (Z.to_nat (nn - 0)) with (Z.to_nat nn) in * by lia.
  replace (Z.to_nat (nn + ni - (0 + Z.of_nat (Z.to_nat nn))))
    with (Z.to_nat ni) in * by lia.
  replace (Z.to_nat (nn + ni + ne
                     - (0 + Z.of_nat (Z.to_nat nn) + Z.of_nat (Z.to_nat ni))))
    with (Z.to_nat ne) in * by lia.
  apply read_nodes_Ok in E1 as (Hk1 & -> & Hx & Hy).
  apply read_interfaces_Ok in E2 as (Hk2 & ->).
  apply read_elements_Ok in E3
    as (Hk3 & n1 & n2 & n3 & -> & -> & -> & H1 & H2 & H3).
  apply Forall2_length in H1, H2, H3. rewrite drop_drop in Hk3, H1, H2, H3.
  unfold element_lines. simpl in *. repeat split; try done; lia.
Qed.

(** X13 (Diva2DMesh.read_from).  For a mesh read from a topology file
    with non-negative node and interface counts, the coordinate arrays
    have [nnodes] entries, the index arrays have [nelements] entries (none
    for a negative count), and the geometry file holds at least one line
    per node, interface and element. *)
Theorem mesh_read_sizes (py_float : string → option float)
  (fs : filesystem) (filename1 filename2 text1 : string) (m : Diva2DMesh.t) :
  fs !! filename1 = Some text1 →
  Diva2DMesh.read_from py_float fs filename1 filename2 = Ok m →
  (0 ≤ Diva2DMesh.nnodes m)%Z → (0 ≤ Diva2DMesh.ninterfaces m)%Z →
  length (Diva2DMesh.xnode m) = Z.to_nat (Diva2DMesh.nnodes m)
  ∧ length (Diva2DMesh.ynode m) = Z.to_nat (Diva2DMesh.nnodes m)
  ∧ length (Diva2DMesh.i1 m) = Z.to_nat (Diva2DMesh.nelements m)
  ∧ length (Diva2DMesh.i2 m) = Z.to_nat (Diva2DMesh.nelements m)
  ∧ length (Diva2DMesh.i3 m) = Z.to_nat (Diva2DMesh.nelements m)
  ∧ Z.to_nat (Diva2DMesh.nnodes m) + Z.to_nat (Diva2DMesh.ninterfaces m)
    + Z.to_nat (Diva2DMesh.nelements m) ≤ length (lines text1).
Proof.
  intros Hfile H Hnn Hni.
  destruct (mesh_read_parts py_float fs filename1 filename2 text1 m
              Hfile H Hnn Hni) as (Hx & Hy & Hk1 & Hk2 & Hk3 & H2 & H3 & H1).
  unfold element_lines in H1. rewrite length_take in H1.
  rewrite !length_drop in *. repeat split; lia.
Qed.

Lemma mesh_read_sizes_witness :
  length [0; 2; 0]%float = Z.to_nat 3
  ∧ length [0; 0; 2]%float = Z.to_nat 3
  ∧ length [0%Z] = Z.to_nat 1
  ∧ length [1%Z] = Z.to_nat 1
  ∧ length [2%Z] = Z.to_nat 1
  ∧ Z.to_nat 3 + Z.to_nat 2 + Z.to_nat 1
    ≤ length (lines (text_of ["1 0.0 0.0"; "2 2.0 0.0"; "3 0.0 2.0"; "1"; "2";
                              "1 0 2 0 3 0"; "trailing"])).
Proof.
  refine (mesh_read_sizes decimal_float
            {[ "fort.22" := text_of ["1 0.0 0.0"; "2 2.0 0.0"; "3 0.0 2.0";
                                     "1"; "2"; "1 0 2 0 3 0"; "trailing"];
               "fort.23" := text_of ["3"; "2"; "1"] ]}
            "fort.22" "fort.23" _
            {| Diva2DMesh.nnodes := 3; Diva2DMesh.ninterfaces := 2;
               Diva2DMesh.nelements := 1;
               Diva2DMesh.xnode := [0; 2; 0]%float;
               Diva2DMesh.ynode := [0; 0; 2]%float;
               Diva2DMesh.i1 := [0%Z]; Diva2DMesh.i2 := [1%Z];
               Diva2DMesh.i3 := [2%Z] |} _ _ _ _);
    [reflexivity | reflexivity | simpl; lia | simpl; lia].
Defined.



Lemma geojson_polygons_Ok (self : Diva2DMesh.t) (idx : list nat) :
  ∀ verts polys,
    Diva2DMesh.geojson_polygons self idx verts = Ok polys →
    ∃ new, polys = verts ++ new ∧ length new = length idx
           ∧ Forall (λ polygon, ∃ p1 p2 p3, polygon = [[p1; p2; p3; p1]]) new.
Proof.
  induction idx as [|j idx IH]; intros verts polys H.
  - injection H as <-. exists []. by rewrite app_nil_r.
  - cbn [Diva2DMesh.geojson_polygons] in H.
    apply bind_Ok in H as (polygon & E & H).
    apply IH in H as (new & -> & Hlen & Hall).
    exists (polygon :: new). rewrite <- app_assoc. repeat split.
    + simpl. lia.
    + constructor; [by eapply mesh_geojson_ring_closed | done].
Qed.

(** [geojson.MultiPolygon] keeps the polygons and the closure of their
    rings: a point and its copy get the same coordinates. *)
Lemma MultiPolygon_closed (precision : float → float)
  (verts : list (list (list (float * float)))) :
  Forall (λ polygon, ∃ p1 p2 p3, polygon = [[p1; p2; p3; p1]]) verts →
  Forall (λ polygon, ∃ p1 p2 p3, polygon = [[p1; p2; p3; p1]])
    (Diva2DMesh.MultiPolygon precision verts).2.
Proof.
  unfold Diva2DMesh.MultiPolygon. cbn [snd].
  induction 1 as [|polygon verts (p1 & p2 & p3 & ->) _ IH];
    cbn [map]; constructor; [|done].
  by eexists _, _, _.
Qed.

(** X15 (Diva2DMesh.to_geojson).  The geometry written for a mesh is a
    multi-polygon with one polygon per element, each made of one ring of
    four points whose last point is the first one. *)
Theorem mesh_geojson_rings (precision : float → float)
  (self : Diva2DMesh.t) (kind : string)
  (polys : list (list (list (float * float)))) :
  Diva2DMesh.to_geojson precision self = Ok (kind, polys) →
  kind = "MultiPolygon"
  ∧ length polys = Z.to_nat (Diva2DMesh.nelements self)
  ∧ Forall (λ polygon, ∃ p1 p2 p3, polygon = [[p1; p2; p3; p1]]) polys.
Proof.
  unfold Diva2DMesh.to_geojson. intros H.
  apply bind_Ok in H as (verts & E & H).
  apply geojson_polygons_Ok in E as (new & -> & Hlen & Hall).
  pose proof (MultiPolygon_closed precision _ Hall) as Hc.
  cbn [app] in H, Hc. injection H as <- <-.
  rewrite length_seq in Hlen. rewrite length_map. by repeat split.
Qed.

Lemma mesh_geojson_rings_witness :
  "MultiPolygon" = "MultiPolygon"
  ∧ length [[[(0, 0); (2, 0); (0, 2); (0, 0)]]]%float = Z.to_nat 1
  ∧ Forall (λ polygon, ∃ p1 p2 p3 : float * float,
                         polygon = [[p1; p2; p3; p1]])
      [[[(0, 0); (2, 0); (0, 2); (0, 0)]]]%float.
Proof.
  refine (mesh_geojson_rings (λ v, v)
            {| Diva2DMesh.nnodes := 3; Diva2DMesh.ninterfaces := 2;
               Diva2DMesh.nelements := 1;
               Diva2DMesh.xnode := [0; 2; 0]%float;
               Diva2DMesh.ynode := [0; 0; 2]%float;
               Diva2DMesh.i1 := [0%Z]; Diva2DMesh.i2 := [1%Z];
               Diva2DMesh.i3 := [2%Z] |} _ _ _).
  reflexivity.
Defined.

Lemma index_in_range {A} (l : list A) (i : Z) :
  (- Z.of_nat (length l) ≤ i < Z.of_nat (length l))%Z →
  ∃ a, index l i = Ok a.
Proof.
  intros Hi. unfold index, getitem. destruct (0 <=? i)%Z eqn:E.
  - apply Z.leb_le in E.
    destruct (lookup_lt_is_Some_2 l (Z.to_nat i)) as [a ->]; [lia|].
    by exists a.
  - apply Z.leb_gt in E. rewrite (proj2 (Z.leb_le _ _)) by lia.
    destruct (lookup_lt_is_Some_2 l (Z.to_nat (Z.of_nat (length l) + i)))
      as [a ->]; [lia|]. by exists a.
Qed.

Lemma corner_in_range (self : Diva2DMesh.t) (ik : list Z) (j : nat) (n : Z) :
  length (Diva2DMesh.xnode self) = Z.to_nat n →
  length (Diva2DMesh.ynode self) = Z.to_nat n →
  Forall (λ i, (- n ≤ i < n)%Z) ik → j < length ik →
  ∃ p, Diva2DMesh.corner self ik j = Ok p.
Proof.
  intros Hx Hy Hik Hj. unfold Diva2DMesh.corner, getitem.
  destruct (lookup_lt_is_Some_2 ik j Hj) as [a Ha]. rewrite Ha. simpl.
  assert (Hr : (- n ≤ a < n)%Z)
    by (eapply Forall_lookup_1 in Hik; [exact Hik | exact Ha]).
  destruct (index_in_range (Diva2DMesh.xnode self) a) as [vx ->]; [lia|].
  destruct (index_in_range (Diva2DMesh.ynode self) a) as [vy ->]; [lia|].
  simpl. by eexists.
Qed.

Lemma geojson_polygons_in_range (self : Diva2DMesh.t) (idx : list nat) :
  Forall (λ j, ∃ p, Diva2DMesh.element_polygon self j = Ok p) idx →
  ∀ verts, ∃ polys, Diva2DMesh.geojson_polygons self idx verts = Ok polys.
Proof.
  induction 1 as [|j idx [p Hp] _ IH]; intros verts; [by eexists|].
  cbn [Diva2DMesh.geojson_polygons]. rewrite Hp. simpl. apply IH.
Qed.

(** X16 (Diva2DMesh.read_from, then to_geojson).  For a mesh read from
    its files with non-negative node and interface counts, [to_geojson]
    raises nothing as soon as every stored index lies between [-nnodes]
    (negative indices count from the last node) and [nnodes - 1]; it then
    writes one polygon per element. *)
Theorem mesh_read_then_geojson (py_float : string → option float)
  (fs : filesystem) (filename1 filename2 : string) (m : Diva2DMesh.t) :
  is_Some (fs !! filename1) →
  Diva2DMesh.read_from py_float fs filename1 filename2 = Ok m →
  (0 ≤ Diva2DMesh.nnodes m)%Z → (0 ≤ Diva2DMesh.ninterfaces m)%Z →
  Forall (λ i, (- Diva2DMesh.nnodes m ≤ i < Diva2DMesh.nnodes m)%Z)
    (Diva2DMesh.i1 m ++ Diva2DMesh.i2 m ++ Diva2DMesh.i3 m) →
  ∀ precision, ∃ polys,
    Diva2DMesh.to_geojson precision m = Ok ("MultiPolygon", polys)
    ∧ length polys = Z.to_nat (Diva2DMesh.nelements m).
Proof.
  intros [text1 Hfile] H Hnn Hni Hall precision.
  destruct (mesh_read_parts py_float fs filename1 filename2 text1 m
              Hfile H Hnn Hni) as (Hx & Hy & _ & _ & Hk3 & H2 & H3 & H1).
  unfold element_lines in H1. rewrite length_take in H1.
  apply Forall_app in Hall as [Ha Hall]. apply Forall_app in Hall as [Hb Hc].
  destruct (λ H, geojson_polygons_in_range m
              (seq 0 (Z.to_nat (Diva2DMesh.nelements m))) H [])
    as [polys Hp].
  { apply Forall_forall. intros j Hj%elem_of_seq.
    unfold Diva2DMesh.element_polygon.
    destruct (corner_in_range m (Diva2DMesh.i1 m) j _ Hx Hy Ha) as [p1 ->];
      [lia|].
    destruct (corner_in_range m (Diva2DMesh.i2 m) j _ Hx Hy Hb) as [p2 ->];
      [lia|].
    destruct (corner_in_range m (Diva2DMesh.i3 m) j _ Hx Hy Hc) as [p3 ->];
      [lia|].
    simpl. by eexists. }
  eexists. unfold Diva2DMesh.to_geojson. rewrite Hp. split; [done|].
  apply geojson_polygons_Ok in Hp as (new & -> & Hlen & _).
  rewrite length_map. by rewrite length_seq in Hlen.
Qed.

Lemma mesh_read_then_geojson_witness :
  ∃ polys,
    Diva2DMesh.to_geojson (λ v, v)
      {| Diva2DMesh.nnodes := 3; Diva2DMesh.ninterfaces := 2;
         Diva2DMesh.nelements := 1;
         Diva2DMesh.xnode := [0; 2; 0]%float;
         Diva2DMesh.ynode := [0; 0; 2]%float;
         Diva2DMesh.i1 := [(-1)%Z]; Diva2DMesh.i2 := [1%Z];
         Diva2DMesh.i3 := [2%Z] |}
    = Ok ("MultiPolygon", polys)
    ∧ length polys = Z.to_nat 1.
Proof.
  refine (mesh_read_then_geojson decimal_float
            {[ "fort.22" := text_of ["1 0.0 0.0"; "2 2.0 0.0"; "3 0.0 2.0";
                                     "1"; "2"; "0 0 2 0 3 0"];
               "fort.23" := text_of ["3"; "2"; "1"] ]}
            "fort.22" "fort.23"
            {| Diva2DMesh.nnodes := 3; Diva2DMesh.ninterfaces := 2;
               Diva2DMesh.nelements := 1;
               Diva2DMesh.xnode := [0; 2; 0]%float;
               Diva2DMesh.ynode := [0; 0; 2]%float;
               Diva2DMesh.i1 := [(-1)%Z]; Diva2DMesh.i2 := [1%Z];
               Diva2DMesh.i3 := [2%Z] |} _ _ _ _ _ (λ v, v));
    [eexists; reflexivity | reflexivity | simpl; lia | simpl; lia
    | repeat constructor; simpl; lia].
Defined.

(** A corner index 0 in the file is stored as -1, and the geometry then
    takes the last node for that corner (here with a library that keeps
    the coordinates as they are). *)
Example mesh_geojson_ex :
  Diva2DMesh.to_geojson (λ v, v)
    {| Diva2DMesh.nnodes := 3; Diva2DMesh.ninterfaces := 2;
       Diva2DMesh.nelements := 1;
       Diva2DMesh.xnode := [0; 2; 0]%float;
       Diva2DMesh.ynode := [0; 0; 2]%float;
       Diva2DMesh.i1 := [(-1)%Z]; Diva2DMesh.i2 := [1%Z];
       Diva2DMesh.i3 := [2%Z] |}
  = Ok ("MultiPolygon", [[[(0, 2); (2, 0); (0, 2); (0, 2)]]]%float).
Proof. reflexivity. Qed.

(** * More on Diva2DParameters, Diva2DResults and Diva2DValatxy *)

Lemma parameters_init_xend_witness :
  Diva2DParameters.domain_end (VFloat 1) (VFloat 0.5) (VInt 11)
  = Ok (VFloat 6).
Proof.
  refine (parameters_init_xend VNone (VInt 0) (VInt 0) (VInt 0)
            (VFloat 1) VNone (VFloat 0.5) VNone (VInt 11) VNone
            (VFloat (-999)) VNone VNone
            (Diva2DParameters.mk VNone (VInt 0) (VInt 0) (VInt 0)
               (VFloat 1) VNone (VFloat 0.5) VNone (VInt 11) VNone
               (VFloat (-999)) VNone VNone (VFloat 6) VNone) _ _ _ _);
    reflexivity.
Defined.

Lemma parameters_init_falsy_witness :
  Diva2DParameters.xend
    (Diva2DParameters.mk VNone (VInt 0) (VInt 0) (VInt 0)
       (VFloat (-0)) VNone (VFloat 0.5) VNone (VInt 11) VNone
       (VFloat (-999)) VNone VNone VNone VNone)
  = VNone.
Proof.
  refine (parameters_init_falsy VNone (VInt 0) (VInt 0) (VInt 0)
            (VFloat (-0)) VNone (VFloat 0.5) VNone (VInt 11) VNone
            (VFloat (-999)) VNone VNone _ _ _); reflexivity.
Defined.

Lemma parameters_read_xend_witness :
  Diva2DParameters.domain_end (VFloat 0) (VFloat 0.5) (VInt 11)
  = Ok (VFloat 5)
  ∧ Diva2DParameters.domain_end (VFloat 10) (VFloat 0.25) (VInt 5)
    = Ok (VFloat 11).
Proof.
  refine (parameters_read_xend
            (λ _, Ok [1.5; 0; 0; 0; 0; 10; 0.5; 0.25; 11; 5; -999; 1; 1]%float)
            {[ "param.par" := "" ]} "param.par"
            (Diva2DParameters.mk (VFloat 1.5) (VInt 0) (VInt 0) (VInt 0)
               (VFloat 0) (VFloat 10) (VFloat 0.5) (VFloat 0.25)
               (VInt 11) (VInt 5) (VFloat (-999)) (VFloat 1) (VFloat 1)
               (VFloat 5) (VFloat 11)) _).
  reflexivity.
Defined.

Lemma arith_Raise (fz : Z → Z → Z) (ff : float → float → float)
  (a b : pyval) (e : exn) :
  arith fz ff a b = Raise e →
  e = OverflowError ∨ (e = TypeError ∧ (a = VNone ∨ b = VNone)).
Proof.
  unfold arith, float_of_int.
  destruct a as [|p|p], b as [|q|q]; simpl; intros H; try done;
    try (right; split; [congruence | by auto]);
    repeat match type of H with
           | context [if ?c then _ else _] => destruct c; simpl in H
           end; try done; left; congruence.
Qed.

Lemma arith_not_None (fz : Z → Z → Z) (ff : float → float → float)
  (a b c : pyval) :
  arith fz ff a b = Ok c → c ≠ VNone.
Proof.
  unfold arith, float_of_int.
  destruct a as [|p|p], b as [|q|q]; simpl; intros H; try done;
    repeat match type of H with
           | context [if ?c then _ else _] => destruct c; simpl in H
           end; try done; by injection H as <-.
Qed.

Lemma domain_end_Raise (ori d n : pyval) (e : exn) :
  truthy n = true → truthy d = true → truthy ori = true →
  Diva2DParameters.domain_end ori d n = Raise e → e = OverflowError.
Proof.
  intros Hn Hd Ho. unfold Diva2DParameters.domain_end, py_sub, py_mul, py_add.
  intros H.
  apply bind_Raise in H as [H|(a & Ea & H)].
  { apply arith_Raise in H as [->|(_ & [->| [=]])]; done. }
  apply bind_Raise in H as [H|(b & Eb & H)].
  { apply arith_not_None in Ea.
    apply arith_Raise in H as [->|(_ & [->| ->])]; done. }
  apply arith_not_None in Eb.
  apply arith_Raise in H as [->|(_ & [->| ->])]; done.
Qed.

(** X20 (Diva2DParameters.__init__).  On parameters that are [None],
    integers or floats, the only exception that the constructor can raise
    is the [OverflowError] of an integer too large for a float: under its
    guard the arithmetic never meets [None]. *)
Theorem parameters_init_errors (cl icoordchange ispec ireg xori yori dx dy
    nx ny valex snr varbak : pyval) (e : exn) :
  Diva2DParameters.init cl icoordchange ispec ireg xori yori dx dy nx ny
                        valex snr varbak = Raise e →
  e = OverflowError.
Proof.
  unfold Diva2DParameters.init. intros H.
  apply bind_Raise in H as [H|(xend & _ & H)].
  { destruct (truthy nx) eqn:En, (truthy dx) eqn:Ed, (truthy xori) eqn:Eo;
      simpl in H; try done. exact (domain_end_Raise xori dx nx e En Ed Eo H). }
  apply bind_Raise in H as [H|(yend & _ & H)]; [|done].
  destruct (truthy ny) eqn:En, (truthy dy) eqn:Ed, (truthy yori) eqn:Eo;
    simpl in H; try done. exact (domain_end_Raise yori dy ny e En Ed Eo H).
Qed.

Lemma parameters_init_errors_witness : OverflowError = OverflowError.
Proof.
  refine (parameters_init_errors VNone (VInt 0) (VInt 0) (VInt 0)
            (VFloat 1) VNone (VFloat 0.5) VNone (VInt (10 ^ 400)) VNone
            (VFloat (-999)) VNone VNone OverflowError _).
  vm_compute. reflexivity.
Defined.

(** X21 (Diva2DResults.__init__).  When the constructor returns with an
    analysis field, it is the array given, its first two dimensions are
    the lengths of the [x] and [y] given, and the error field, when there
    is one, has the shape of the analysis field. *)
Theorem results_init_shapes (ax ay : pyseq float)
  (analysis error : option ndarray) (r : Diva2DResults.built) (an : ndarray) :
  Diva2DResults.init ax ay analysis error = Ok r →
  Diva2DResults.built_analysis r = Some an →
  analysis = Some an
  ∧ (∃ lx ly dims,
       items ax = Ok lx ∧ items ay = Ok ly
       ∧ shape an = length lx :: length ly :: dims)
  ∧ ∀ er, Diva2DResults.built_error r = Some er →
          error = Some er ∧ shape er = shape an.
Proof.
  unfold Diva2DResults.init. intros H Han.
  destruct analysis as [a|]; [|injection H as <-; done].
  apply bind_Ok in H as (s0 & E0 & H). apply bind_Ok in H as (lx & Ex & H).
  apply bind_Ok in H as (ok & Eok & H). destruct ok; [|done].
  destruct (decide (s0 = lx)) as [->|]; [|done].
  apply bind_Ok in Eok as (s1 & E1 & Eok).
  apply bind_Ok in Eok as (ly & Ey & Eok). injection Eok as Eok.
  apply bool_decide_eq_true in Eok as ->.
  unfold len in Ex, Ey.
  apply bind_Ok in Ex as (l1 & Ex1 & Ex). injection Ex as <-.
  apply bind_Ok in Ey as (l2 & Ey1 & Ey). injection Ey as <-.
  assert (Hshape : ∃ dims, shape a = length l1 :: length l2 :: dims).
  { unfold getitem in E0, E1. destruct (shape a) as [|d0 [|d1 dims]];
      simpl in *; try done. injection E0 as ->. injection E1 as ->.
    by exists dims. }
  destruct Hshape as [dims Hshape].
  destruct error as [er|].
  - destruct (decide (shape a = shape er)) as [Hs|]; [|done].
    injection H as <-. simpl in Han. injection Han as <-.
    split; [done|]. split; [by exists l1, l2, dims|].
    simpl. intros er' [= <-]. by split.
  - injection H as <-. simpl in Han. injection Han as <-.
    split; [done|]. split; [by exists l1, l2, dims|]. by simpl.
Qed.

Lemma results_init_shapes_witness :
  Some (mk_ndarray [2; 3] [1.5; 2; -999; 0; 0.5; 7]%float)
  = Some (mk_ndarray [2; 3] [1.5; 2; -999; 0; 0.5; 7]%float)
  ∧ (∃ lx ly dims,
       items (PyArray [0; 1]%float) = Ok lx
       ∧ items (PyList [0; 1; 2]%float) = Ok ly
       ∧ shape (mk_ndarray [2; 3] [1.5; 2; -999; 0; 0.5; 7]%float)
         = length lx :: length ly :: dims)
  ∧ ∀ er, Diva2DResults.built_error
            (Diva2DResults.mk_built (PyArray [0; 1]%float) PyNone
               (Some (mk_ndarray [2; 3] [1.5; 2; -999; 0; 0.5; 7]%float))
               None) = Some er →
          None = Some er
          ∧ shape er
            = shape (mk_ndarray [2; 3] [1.5; 2; -999; 0; 0.5; 7]%float).
Proof.
  refine (results_init_shapes (PyArray [0; 1]%float) (PyList [0; 1; 2]%float)
            (Some (mk_ndarray [2; 3] [1.5; 2; -999; 0; 0.5; 7]%float)) None
            (Diva2DResults.mk_built (PyArray [0; 1]%float) PyNone
               (Some (mk_ndarray [2; 3] [1.5; 2; -999; 0; 0.5; 7]%float))
               None) _ _ _); reflexivity.
Defined.

(** With [x] an array and [y] a list, the constructor accepts the fields
    and stores [None] as [y]; with a shape that does not fit it raises. *)
Example results_init_ex :
  Diva2DResults.init (PyArray [0; 1]%float) (PyList [0; 1; 2]%float)
    (Some (mk_ndarray [2; 3] [1.5; 2; -999; 0; 0.5; 7]%float)) None
  = Ok (Diva2DResults.mk_built (PyArray [0; 1]%float) PyNone
          (Some (mk_ndarray [2; 3] [1.5; 2; -999; 0; 0.5; 7]%float)) None)
  ∧ Diva2DResults.init (PyList [0; 1]%float) (PyList [0; 1; 2]%float)
      (Some (mk_ndarray [3; 2] [1.5; 2; -999; 0; 0.5; 7]%float)) None
    = Raise (Exception "Dimension mismatch").
Proof. split; reflexivity. Qed.

(** X22 (Diva2DValatxy.__init__, write_to).  The constructor returns only
    for two sequences of one length, and [write_to] then writes one line
    per point: its two tokens are the texts of the coordinates of the
    point, which [float] reads back, in the order of the points. *)
Theorem valatxy_write_lines (py_float : string → option float)
  (py_str : float → string) (ax ay : pyseq float) (self : Diva2DValatxy.t) :
  Diva2DValatxy.init ax ay = Ok self →
  (∀ l, items ax = Ok l → Forall (printable py_float py_str) l) →
  (∀ l, items ay = Ok l → Forall (printable py_float py_str) l) →
  ∃ lx ly text,
    items ax = Ok lx ∧ items ay = Ok ly ∧ length lx = length ly
    ∧ Diva2DValatxy.write_text py_str self = Ok text
    ∧ Forall2 (λ line p, (py_float <$> split line) = [Some p.1; Some p.2])
        (lines text) (zip lx ly).
Proof.
  unfold Diva2DValatxy.init, len. intros H Hx Hy.
  apply bind_Ok in H as (nx & Ex & H). apply bind_Ok in H as (ny & Ey & H).
  apply bind_Ok in Ex as (lx & Elx & Ex). injection Ex as <-.
  apply bind_Ok in Ey as (ly & Ely & Ey). injection Ey as <-.
  destruct (decide (length lx = length ly)) as [Hl|]; [|done].
  injection H as <-. exists lx, ly.
  specialize (Hx lx Elx). specialize (Hy ly Ely).
  unfold Diva2DValatxy.write_text. cbn [Diva2DValatxy.x Diva2DValatxy.y].
  rewrite Elx, Ely. simpl. eexists. repeat split; try done.
  change (foldl _ EmptyString (zip lx ly))
    with (Diva2DContours.write_points py_str EmptyString lx ly).
  rewrite write_points_render, append_nil_l.
  clear Elx Ely. revert ly Hl Hy.
  induction Hx as [|x0 lx Hx0 Hx IH]; intros ly Hl Hy.
  - destruct ly; [constructor | done].
  - destruct ly as [|y0 ly]; [done|].
    apply Forall_cons in Hy as [Hy0 Hy].
    destruct (printable_line py_float py_str x0 y0 Hx0 Hy0) as [Hnl Hsplit].
    unfold render_points. cbn [zip zip_with foldr].
    fold (render_points py_str lx ly). rewrite lines_line by done.
    constructor.
    + rewrite Hsplit. simpl. destruct Hx0 as [_ ->]. by destruct Hy0 as [_ ->].
    + apply IH; [by injection Hl | done].
Qed.

Lemma valatxy_write_lines_witness :
  ∃ lx ly text,
    items (PyList [0; 1.5]%float) = Ok lx
    ∧ items (PyArray [2; 0.5]%float) = Ok ly ∧ length lx = length ly
    ∧ Diva2DValatxy.write_text repr_halves
        {| Diva2DValatxy.x := PyList [0; 1.5]%float;
           Diva2DValatxy.y := PyArray [2; 0.5]%float |} = Ok text
    ∧ Forall2 (λ line p,
                 (decimal_float <$> split line) = [Some p.1; Some p.2])
        (lines text) (zip lx ly).
Proof.
  refine (valatxy_write_lines decimal_float repr_halves
            (PyList [0; 1.5]%float) (PyArray [2; 0.5]%float) _ _ _ _);
    [reflexivity
    | intros l [= <-]; repeat first [apply List.Forall_nil
                                     | apply List.Forall_cons | split
                                     | reflexivity]
    | intros l [= <-]; repeat first [apply List.Forall_nil
                                     | apply List.Forall_cons | split
                                     | reflexivity] ].
Defined.

Example valatxy_init_ex :
  Diva2DValatxy.init (PyList [0; 1.5]%float) (PyList [2]%float)
  = Raise (Exception "Input vectors have not the same length")
  ∧ Diva2DValatxy.init PyNone (PyList [2]%float) = Raise TypeError.
Proof. split; reflexivity. Qed.

(** * Diva2DParameters.write_to and Diva2DContours.to_geojson *)

Lemma lines_last (s : string) :
  no_newline s = true → s ≠ EmptyString → lines s = [s].
Proof.
  induction s as [|c r IH]; [done|]. simpl.
  intros [Hc Hr]%andb_true_iff _. apply negb_true_iff in Hc.
  apply bool_decide_eq_false in Hc. rewrite decide_False by done.
  destruct r as [|d r']; [done|]. by rewrite IH.
Qed.

Lemma split_value_line (t : string) :
  is_token t = true → split (t +:+ " " +:+ nl) = [t].
Proof. intros Ht. by rewrite split_token. Qed.

Lemma split_lone (t : string) : is_token t = true → split t = [t].
Proof.
  intros Ht. rewrite <- (append_nil_r t) at 1. by rewrite split_token.
Qed.

Lemma lines_value_line (t rest : string) :
  is_token t = true →
  lines (t +:+ " " +:+ nl +:+ rest) = (t +:+ " " +:+ nl) :: lines rest.
Proof.
  intros Ht. rewrite <- (append_assoc t " " (nl +:+ rest)).
  rewrite lines_line; [by rewrite append_assoc|].
  rewrite no_newline_app.
  by rewrite no_space_no_newline by by apply is_token_no_space.
Qed.

(** X23 (Diva2DParameters.write_to).  When the text of each parameter is
    one token, the written file has 26 lines: for each of the 13
    parameters, in the fixed order, a comment line that starts with [#]
    and names it, then a line whose only token is the text of its
    value. *)
Theorem parameters_write_lines (py_str : float → string)
  (self : Diva2DParameters.t) (fs : filesystem) (filename : string) :
  Forall (λ v, is_token (Diva2DParameters.format_val py_str v) = true)
    [Diva2DParameters.cl self; Diva2DParameters.icoordchange self;
     Diva2DParameters.ispec self; Diva2DParameters.ireg self;
     Diva2DParameters.xori self; Diva2DParameters.yori self;
     Diva2DParameters.dx self; Diva2DParameters.dy self;
     Diva2DParameters.nx self; Diva2DParameters.ny self;
     Diva2DParameters.valex self; Diva2DParameters.snr self;
     Diva2DParameters.varbak self] →
  ∃ text,
    Diva2DParameters.write_to py_str self fs filename !! filename = Some text
    ∧ split <$> lines text
      = [ ["#"; "Correlation"; "Length"; "lc"];
          [Diva2DParameters.format_val py_str (Diva2DParameters.cl self)];
          ["#"; "icoordchange"];
          [Diva2DParameters.format_val py_str
             (Diva2DParameters.icoordchange self)];
          ["#"; "ispec"];
          [Diva2DParameters.format_val py_str (Diva2DParameters.ispec self)];
          ["#"; "ireg"];
          [Diva2DParameters.format_val py_str (Diva2DParameters.ireg self)];
          ["#"; "xori"];
          [Diva2DParameters.format_val py_str (Diva2DParameters.xori self)];
          ["#"; "yori"];
          [Diva2DParameters.format_val py_str (Diva2DParameters.yori self)];
          ["#"; "dx"];
          [Diva2DParameters.format_val py_str (Diva2DParameters.dx self)];
          ["#"; "dy"];
          [Diva2DParameters.format_val py_str (Diva2DParameters.dy self)];
          ["#"; "nx"];
          [Diva2DParameters.format_val py_str (Diva2DParameters.nx self)];
          ["#"; "ny"];
          [Diva2DParameters.format_val py_str (Diva2DParameters.ny self)];
          ["#"; "valex"];
          [Diva2DParameters.format_val py_str (Diva2DParameters.valex self)];
          ["#"; "snr"];
          [Diva2DParameters.format_val py_str (Diva2DParameters.snr self)];
          ["#"; "varbak"];
          [Diva2DParameters.format_val py_str (Diva2DParameters.varbak self)]
        ].
Proof.
  intros H. exists (Diva2DParameters.write_text py_str self).
  unfold Diva2DParameters.write_to, filesystem.
  rewrite lookup_insert_eq. split; [done|].
  unfold Diva2DParameters.write_text.
  repeat (apply Forall_cons in H as [? H]).
  repeat (rewrite (lines_line (String "#" _)) by reflexivity;
          first [rewrite lines_value_line by done | idtac]).
  rewrite lines_last.
  - cbn [fmap list_fmap].
    rewrite !split_value_line by done.
    by rewrite (split_lone (Diva2DParameters.format_val py_str
                              (Diva2DParameters.varbak self))).
  - by apply no_space_no_newline, is_token_no_space.
  - by destruct (Diva2DParameters.format_val py_str
                   (Diva2DParameters.varbak self)).
Qed.

Lemma parameters_write_lines_witness :
  ∃ text,
    Diva2DParameters.write_to repr_halves
      (Diva2DParameters.mk (VFloat 1.5) (VInt 0) (VInt 0) (VInt 0)
         (VFloat 0) (VFloat 10) (VFloat 0.5) (VFloat 0.5)
         (VInt 11) (VInt 5) (VFloat (-999)) VNone VNone
         (VFloat 5) (VFloat 12)) ∅ "param.par" !! "param.par" = Some text
    ∧ split <$> lines text
      = [ ["#"; "Correlation"; "Length"; "lc"]; ["1.5"];
          ["#"; "icoordchange"]; ["0"]; ["#"; "ispec"]; ["0"];
          ["#"; "ireg"]; ["0"]; ["#"; "xori"]; ["0.0"];
          ["#"; "yori"]; ["10.0"]; ["#"; "dx"]; ["0.5"];
          ["#"; "dy"]; ["0.5"]; ["#"; "nx"]; ["11"]; ["#"; "ny"]; ["5"];
          ["#"; "valex"]; ["-999.0"]; ["#"; "snr"]; ["None"];
          ["#"; "varbak"]; ["None"] ].
Proof.
  refine (parameters_write_lines repr_halves
            (Diva2DParameters.mk (VFloat 1.5) (VInt 0) (VInt 0) (VInt 0)
               (VFloat 0) (VFloat 10) (VFloat 0.5) (VFloat 0.5)
               (VInt 11) (VInt 5) (VFloat (-999)) VNone VNone
               (VFloat 5) (VFloat 12)) ∅ "param.par" _).
  repeat first [apply List.Forall_nil | apply List.Forall_cons; [reflexivity|]].
Defined.

Lemma contours_geojson_rings_witness :
  Diva2DContours.to_geojson
    (Diva2DContours.of_arrays [[0; 1; 0]; [5]]%float [[0; 0; 1]; [6; 7]]%float)
  = Ok ("MultiPolygon",
        (λ '(xi, yi), [zip xi yi])
          <$> zip [[0; 1; 0]; [5]]%float [[0; 0; 1]; [6; 7]]%float).
Proof.
  apply (contours_geojson_rings [[0; 1; 0]; [5]]%float
           [[0; 0; 1]; [6; 7]]%float).
  reflexivity.
Defined.

(** * Composing the constructor, the readers and the writers *)

(** X25 (Diva2DData.__init__, then write_to).  On an instance returned by
    the constructor, [write_to] succeeds exactly when the four attributes
    are arrays; on the other instances it raises [AttributeError] (an
    attribute was never assigned) or [TypeError] (an attribute is
    [None]). *)
Theorem data_init_then_write (py_str : float → string)
  (ax ay afield aweight : pyseq num) (self : Diva2DData.t) :
  Diva2DData.init ax ay afield aweight = Ok self →
  match Diva2DData.write_text py_str self with
  | Ok _ =>
      ∃ lx ly lf lw,
        self = {| Diva2DData.x := Some (PyArray lx);
                  Diva2DData.y := Some (PyArray ly);
                  Diva2DData.field := Some (PyArray lf);
                  Diva2DData.weight := Some (PyArray lw) |}
  | Raise e =>
      (e = AttributeError ∨ e = TypeError)
      ∧ Forall (λ a, a = None ∨ a = Some PyNone)
          [Diva2DData.x self; Diva2DData.y self; Diva2DData.field self;
           Diva2DData.weight self]
  end.
Proof.
  unfold Diva2DData.init, Diva2DData.write_text. intros H.
  destruct ax as [|lx|lx|]; try done; destruct ay as [|ly|ly|]; try done;
    destruct afield as [|lf|lf|]; try done;
    destruct aweight as [|lw|lw|]; try done; simpl in H;
    repeat (case_bool_decide; simpl in H; try done);
    injection H as <-; cbn -[foldl zip];
    first [ by do 4 eexists
          | split; [by auto | repeat constructor; by auto] ].
Qed.

Lemma data_init_then_write_witness :
  match Diva2DData.write_text repr_halves
          {| Diva2DData.x := None; Diva2DData.y := Some PyNone;
             Diva2DData.field := None; Diva2DData.weight := None |} with
  | Ok _ =>
      ∃ lx ly lf lw,
        {| Diva2DData.x := None; Diva2DData.y := Some PyNone;
           Diva2DData.field := None; Diva2DData.weight := None |}
        = {| Diva2DData.x := Some (PyArray lx);
             Diva2DData.y := Some (PyArray ly);
             Diva2DData.field := Some (PyArray lf);
             Diva2DData.weight := Some (PyArray lw) |}
  | Raise e =>
      (e = AttributeError ∨ e = TypeError)
      ∧ Forall (λ a, a = None ∨ a = Some PyNone)
          [None; Some PyNone; None; (None : option (pyseq num))]
  end.
Proof.
  apply (data_init_then_write repr_halves (PyList [NInt 1; NInt 2; NInt 3])
           PyNone (PyList [NInt 1; NInt 2]) PyNone).
  reflexivity.
Defined.

(** X26 (Diva2DContours.read_from, write_to).  A contour set read from a
    file, whose coordinates are printed as tokens that [float] reads back,
    is written and read again unchanged. *)
Theorem contours_read_write_read (ragged : bool)
  (py_float : string → option float)
  (py_str : float → string) (fs fs1 : filesystem) (filename out : string)
  (lon lat : list (list float)) :
  Diva2DContours.read_from ragged py_float fs filename
  = Ok (Diva2DContours.of_arrays lon lat) →
  Forall (Forall (printable py_float py_str)) lon →
  Forall (Forall (printable py_float py_str)) lat →
  ∃ fs',
    Diva2DContours.write_to py_str (Diva2DContours.of_arrays lon lat) fs1 out
    = Ok fs'
    ∧ Diva2DContours.read_from ragged py_float fs' out
      = Ok (Diva2DContours.of_arrays lon lat).
Proof.
  intros H Hx Hy.
  assert (Hl : Forall2 (λ xi yi, length xi = length yi) lon lat
               ∧ (ragged = true ∨ same_lengths lon = true)).
  { unfold Diva2DContours.read_from, Diva2DContours.read_text in H.
    destruct (fs !! filename) as [text|]; [|done].
    destruct (readline (lines text)) as [line f].
    apply bind_Ok in H as (tok & _ & H). apply bind_Ok in H as (n & _ & H).
    apply bind_Ok in H as ([[lon' lat'] f'] & Ep & H).
    apply bind_Ok in H as (ax & [-> Hr]%np_array2_inv & H).
    apply bind_Ok in H as (ay & [-> _]%np_array2_inv & H).
    injection H as <- <-. split; [|done].
    by apply read_polylines_app in Ep as (nx & ny & -> & -> & _ & Hl & _). }
  destruct Hl as [Hl Hr].
  exists (<[out := render py_str lon lat]> fs1).
  unfold Diva2DContours.write_to, Diva2DContours.read_from.
  rewrite write_text_render by by eapply Forall2_length.
  split; [done|]. unfold filesystem in *. simpl. rewrite lookup_insert_eq.
  by apply read_text_render.
Qed.

Lemma contours_read_write_read_witness :
  ∃ fs',
    Diva2DContours.write_to repr_halves
      (Diva2DContours.of_arrays [[0.5; 1]; [3; 5]]%float
                                [[1.5; 2]; [4; 6]]%float)
      ∅ "copy.cont" = Ok fs'
    ∧ Diva2DContours.read_from false decimal_float fs' "copy.cont"
      = Ok (Diva2DContours.of_arrays [[0.5; 1]; [3; 5]]%float
                                     [[1.5; 2]; [4; 6]]%float).
Proof.
  apply (contours_read_write_read false decimal_float repr_halves
           {[ "coast.cont" :=
                text_of ["2"; "2"; "0.5 1.5"; "1 2"; "2"; "3 4"; "5 6";
                         "trailing text"] ]}
           ∅ "coast.cont" "copy.cont");
    repeat first [apply List.Forall_nil | apply List.Forall_cons | split
                 | reflexivity].
Defined.
